(** * ChronoLog: the timeline reconciliation engine

    A shallow embedding of [src/utils/time_utils.py] (date filter, merge
    engine, gap filler, daily grouping) and of
    [JiraService.submit_time_entries] in [src/services/jira_service.py],
    followed by the properties the specification states about them.

    Modelling conventions.
    - A timezone-aware [datetime] is a record of its wall-clock fields and
      the fixed UTC offset of its tzinfo.  Comparison and subtraction of
      aware datetimes go through the UTC instant, counted in microseconds.
    - A [timedelta] is its exact number of microseconds (a [Z]).
    - Python numbers, ints and floats alike, are modelled by exact
      rationals ([Q], kept reduced): [td.total_seconds() / 60] is the
      rational [td / 60000000].  Rounding to the nearest float is
      monotone, so the comparisons the code makes between such a quotient
      and an integer number of minutes come out as the exact ones.  The one
      product whose integer part the code takes, [duration_minutes * 60]
      in [submit_time_entries], is a parameter of the model: rounding can
      move it across an integer.
    - An activity dict always carries the keys [source], [title],
      [start_time] and [end_time] (the code indexes them with [[]]); they
      are record fields.  Every other key of the dict lives in the finite
      map [extra]. *)

From Stdlib Require Import ZArith QArith Qround Lia.
From stdpp Require Import gmap strings list sorting pretty.

Local Open Scope Z_scope.

(** ** Python values stored under the optional keys of a dict *)

Record datetime := mk_datetime {
  year : Z; month : Z; day : Z;
  hour : Z; minute : Z; second : Z; microsecond : Z;
  utcoffset : Z  (* seconds east of UTC *)
}.

(** [VOpaque] is a list or a dict: whether it has elements, and the rest
    of it. *)
Inductive value :=
| VNone
| VBool (b : bool)
| VNum (q : Q)
| VStr (s : string)
| VTime (t : datetime)
| VOpaque (nonempty : bool) (payload : N).

Record activity := mk_activity {
  source : string;
  title : string;
  start_time : datetime;
  end_time : datetime;
  extra : gmap string value
}.

(** ** The datetime library, as far as the code uses it *)

Module Datetime.

Definition is_leap (y : Z) : bool :=
  (y mod 4 =? 0) && (negb (y mod 100 =? 0) || (y mod 400 =? 0)).

Definition days_before_year (y : Z) : Z :=
  let y1 := y - 1 in y1 * 365 + y1 / 4 - y1 / 100 + y1 / 400.

Definition days_before_month (y m : Z) : Z :=
  (match m with
   | 1 => 0 | 2 => 31 | 3 => 59 | 4 => 90 | 5 => 120 | 6 => 151
   | 7 => 181 | 8 => 212 | 9 => 243 | 10 => 273 | 11 => 304 | _ => 334
   end) + (if (2 <? m) && is_leap y then 1 else 0).

(** [date(y, m, d).toordinal()]: day 1 is 0001-01-01. *)
Definition ymd2ord (y m d : Z) : Z :=
  days_before_year y + days_before_month y m + d.

(** Microseconds from 0000-12-31T00:00:00 UTC to [t]: the UTC instant
    that comparison and subtraction of aware datetimes work on. *)
Definition instant (t : datetime) : Z :=
  let 'mk_datetime y mo d h mi s us off := t in
  (ymd2ord y mo d * 86400 + h * 3600 + mi * 60 + s - off) * 1000000 + us.

Definition le (a b : datetime) : bool := instant a <=? instant b.
Definition lt (a b : datetime) : bool := instant a <? instant b.
Definition ge (a b : datetime) : bool := le b a.
Definition gt (a b : datetime) : bool := lt b a.

(** [a - b], a timedelta in microseconds. *)
Definition sub (a b : datetime) : Z := instant a - instant b.

(** [td.total_seconds()]. *)
Definition total_seconds (td : Z) : Q := Qred (td # 1000000).

(** [td.total_seconds() / 60]. *)
Definition total_minutes (td : Z) : Q := Qred (td # 60000000).

(** [min(a, b)] and [max(a, b)] keep the first argument on ties. *)
Definition min (a b : datetime) : datetime := if lt b a then b else a.
Definition max (a b : datetime) : datetime := if gt b a then b else a.

(** [t.replace(hour=h, minute=0, second=0, microsecond=0)]; a
    [ValueError] for an hour outside 0..23 is [None]. *)
Definition replace_hour (t : datetime) (h : Z) : option datetime :=
  if (0 <=? h) && (h <? 24)
  then Some {| year := year t; month := month t; day := day t;
               hour := h; minute := 0; second := 0; microsecond := 0;
               utcoffset := utcoffset t |}
  else None.

Definition digit (d : Z) : Ascii.ascii :=
  Ascii.ascii_of_N (48 + Z.to_N d).

(** The [w] low decimal digits of [n], zero padded. *)
Fixpoint digits (w : nat) (n : Z) : string :=
  match w with
  | O => EmptyString
  | S w' => digits w' (n / 10) +:+ String (digit (n mod 10)) EmptyString
  end.

(** [t.strftime('%Y-%m-%d')]: the wall-clock date of [t], in the zone
    [t] itself carries. *)
Definition strftime_ymd (t : datetime) : string :=
  digits 4 (year t) +:+ "-" +:+ digits 2 (month t) +:+ "-" +:+ digits 2 (day t).

End Datetime.

(** ** Configuration ([src/config/config.py]) *)

Definition ACTIVITY_MERGE_THRESHOLD : Z := 2.
Definition DEFAULT_WORKING_HOURS : Z * Z := (9, 17).

(** ** [sorted(xs, key=...)]: a stable sort on an integer key *)

Section Sorted.
Context {A : Type} (key : A -> Z).

Fixpoint insert_by (x : A) (l : list A) : list A :=
  match l with
  | [] => [x]
  | y :: l' => if key x <=? key y then x :: y :: l' else y :: insert_by x l'
  end.

Fixpoint py_sorted (l : list A) : list A :=
  match l with
  | [] => []
  | x :: l' => insert_by x (py_sorted l')
  end.

(** Ascending in the key, adjacent-wise. *)
Definition ascending : list A -> Prop := Sorted (fun x y => key x <= key y).
End Sorted.

Definition start_key (a : activity) : Z := Datetime.instant (start_time a).
Definition end_key (a : activity) : Z := Datetime.instant (end_time a).

(** ** [filter_activities_by_date] *)

Definition filter_activities_by_date
    (activities : list activity) (start_date end_date : datetime) : list activity :=
  List.filter
    (fun a => Datetime.ge (start_time a) start_date
              && Datetime.le (end_time a) end_date)
    activities.

(** ** [merge_overlapping_activities] *)

(** The test of the [if] in the loop: the activities overlap, or the gap
    between them is at most the threshold. *)
Definition mergeable (current next_activity : activity) : bool :=
  Datetime.le (start_time next_activity) (end_time current)
  || Qle_bool
       (Datetime.total_minutes
          (Datetime.sub (start_time next_activity) (end_time current)))
       (inject_Z ACTIVITY_MERGE_THRESHOLD).

(** The donor of the remaining fields. *)
Definition donor (current next_activity : activity) : activity :=
  let current_duration :=
    Datetime.total_seconds (Datetime.sub (end_time current) (start_time current)) in
  let next_duration :=
    Datetime.total_seconds
      (Datetime.sub (end_time next_activity) (start_time next_activity)) in
  if negb (Qle_bool current_duration next_duration) then current else next_activity.

(** The body of the merging branch.  The donor's keys other than the four
    positional ones are the whole of [extra donor]; [duration_minutes] is
    then overwritten. *)
Definition merge_pair (current next_activity : activity) : activity :=
  let merged_start := Datetime.min (start_time current) (start_time next_activity) in
  let merged_end := Datetime.max (end_time current) (end_time next_activity) in
  {| source := source current +:+ "," +:+ source next_activity;
     title := title current +:+ "; " +:+ title next_activity;
     start_time := merged_start;
     end_time := merged_end;
     extra := <["duration_minutes" :=
                  VNum (Datetime.total_minutes (Datetime.sub merged_end merged_start))]>
                (extra (donor current next_activity)) |}.

(** One iteration of the [for] loop on the state [(merged, current)]. *)
Definition merge_step (st : list activity * activity) (next_activity : activity)
    : list activity * activity :=
  let '(merged, current) := st in
  if mergeable current next_activity
  then (merged, merge_pair current next_activity)
  else (merged ++ [current], next_activity).

Definition merge_overlapping_activities (activities : list activity) : list activity :=
  match py_sorted start_key activities with
  | [] => []
  | first :: rest =>
      let '(merged, current) := fold_left merge_step rest ([], first) in
      merged ++ [current]
  end.

(** ** [fill_time_gaps] *)

Definition gap_activity (gap_start gap_end : datetime) (gap_minutes : Q) : activity :=
  {| source := "time_gap";
     title := "Unknown Activity";
     start_time := gap_start;
     end_time := gap_end;
     extra := <["duration_minutes" := VNum gap_minutes]>
              (<["task_type" := VStr "Unknown"]>
              (<["jira_issue" := VStr "unknown"]>
              (<["description" := VStr "Untracked time"]>
              (<["billable" := VBool false]> ∅)))) |}.

(** What one iteration appends before the current activity: nothing, or
    one synthesized gap.  [None] is the [ValueError] of [replace]. *)
Definition gap_between (prev_end curr_start : datetime)
    (min_gap_minutes : Z) (working_hours : Z * Z) : option (list activity) :=
  let '(work_start_hour, work_end_hour) := working_hours in
  let gap_minutes := Datetime.total_minutes (Datetime.sub curr_start prev_end) in
  if Qle_bool (inject_Z min_gap_minutes) gap_minutes then
    day_start ← Datetime.replace_hour prev_end work_start_hour;
    day_end ← Datetime.replace_hour prev_end work_end_hour;
    let gap_start := Datetime.max prev_end day_start in
    let gap_end := Datetime.min curr_start day_end in
    let gap_minutes := Datetime.total_minutes (Datetime.sub gap_end gap_start) in
    if Qle_bool (inject_Z min_gap_minutes) gap_minutes
    then Some [gap_activity gap_start gap_end gap_minutes]
    else Some []
  else Some [].

(** The body of [for i in range(1, len(sorted_activities))]. *)
Definition fill_step (sorted_activities : list activity)
    (min_gap_minutes : Z) (working_hours : Z * Z)
    (result : option (list activity)) (i : nat) : option (list activity) :=
  result ← result;
  prev ← sorted_activities !! (i - 1)%nat;
  curr ← sorted_activities !! i;
  gap ← gap_between (end_time prev) (start_time curr) min_gap_minutes working_hours;
  Some (result ++ gap ++ [curr]).

Definition fill_time_gaps (activities : list activity)
    (min_gap_minutes : Z) (working_hours : Z * Z) : option (list activity) :=
  if (length activities <? 2)%nat then Some activities
  else
    let sorted_activities := py_sorted start_key activities in
    fold_left (fill_step sorted_activities min_gap_minutes working_hours)
      (seq 1 (length sorted_activities - 1))
      (first ← sorted_activities !! 0%nat; Some [first]).

(** ** [group_activities_by_day] *)

Definition group_step (days : gmap string (list activity)) (a : activity)
    : gmap string (list activity) :=
  let day_str := Datetime.strftime_ymd (start_time a) in
  let days := match days !! day_str with
              | None => <[day_str := []]> days
              | Some _ => days
              end in
  alter (fun l => l ++ [a]) day_str days.

Definition group_activities_by_day (activities : list activity)
    : gmap string (list activity) :=
  py_sorted start_key <$> fold_left group_step activities ∅.

(** ** [JiraService.submit_time_entries] *)

(** A time entry: every key is read with [.get], so every key may be
    absent.  [jira_issue] holds whatever the dashboard row held. *)
Record entry := mk_entry {
  jira_issue : option value;
  duration_minutes : option Q;
  description : option string;
  entry_start_time : option datetime
}.

(** Truth value of a Python object. *)
Definition py_truthy (v : value) : bool :=
  match v with
  | VNone => false
  | VBool b => b
  | VNum q => negb (Qeq_bool q 0)
  | VStr s => negb (String.eqb s "")
  | VTime _ => true
  | VOpaque nonempty _ => nonempty
  end.

(** [v == 'unknown']. *)
Definition is_unknown (v : value) : bool :=
  match v with
  | VStr s => String.eqb s "unknown"
  | _ => false
  end.

(** [int(x)] on a float: truncation toward zero. *)
Definition py_int (x : Q) : Z := Z.quot (Qnum x) (Z.pos (Qden x)).

(** The arguments of one [log_work] call. *)
Record worklog := mk_worklog {
  issue_key : value;
  time_spent_seconds : Z;
  comment : string;
  started : option datetime
}.

(** The returned counters, the failed entries, and (ghost) the calls made
    to [log_work], oldest first. *)
Record results := mk_results {
  success : nat;
  error : nat;
  skipped : nat;
  errors : list entry;
  submitted : list worklog
}.

(** How a call to [log_work] ends.  It returns [True]; or it returns
    [False], when the REST call fails inside its [try]; or it raises:
    [jira = self._get_client()] stands before the [try], and
    [get_jira_client] raises when the authentication fails. *)
Inductive outcome := Logged | Failed | Raised.

Section Submit.
(** The environment of one run: how the [k]-th call to [log_work] of the
    run, counting from 0 and made with the arguments [w], ends.  The
    outcome belongs to the call and not to its arguments alone: Jira may
    refuse a worklog once and accept an equal one later. *)
Variable log_work : nat -> worklog -> outcome.

(** [x * 60] as Python computes it: exact on an int, rounded to the
    nearest float on a float. *)
Variable times60 : Q -> Q.

(** [int(entry.get('duration_minutes', 0) * 60)]; the default is the int
    0. *)
Definition whole_seconds (e : entry) : Z :=
  match duration_minutes e with
  | Some q => py_int (times60 q)
  | None => 0
  end.

(** One iteration of the loop.  The state is the flag [running] (no
    exception so far) and the counters; once [log_work] has raised, the exception
    leaves the loop and the function, and no later entry is looked at. *)
Definition submit_step (st : bool * results) (e : entry) : bool * results :=
  let '(running, r) := st in
  if negb running then st
  else
    let issue := default VNone (jira_issue e) in
    if negb (py_truthy issue) || is_unknown issue
    then (true, mk_results (success r) (error r) (S (skipped r)) (errors r)
                  (submitted r))
    else
      let duration_seconds := whole_seconds e in
      if duration_seconds <? 60
      then (true, mk_results (success r) (error r) (S (skipped r)) (errors r)
                    (submitted r))
      else
        let w := {| issue_key := issue;
                    time_spent_seconds := duration_seconds;
                    comment := default "Work logged by ChronoLog" (description e);
                    started := entry_start_time e |} in
        match log_work (length (submitted r)) w with
        | Logged =>
            (true, mk_results (S (success r)) (error r) (skipped r) (errors r)
                     (submitted r ++ [w]))
        | Failed =>
            (true, mk_results (success r) (S (error r)) (skipped r)
                     (errors r ++ [e]) (submitted r ++ [w]))
        | Raised =>
            (false, mk_results (success r) (error r) (skipped r) (errors r)
                      (submitted r ++ [w]))
        end.

Definition submit_loop (entries : list entry) : bool * results :=
  fold_left submit_step entries (true, mk_results 0 0 0 [] []).

(** What the caller receives: the [results] dict, or nothing ([None])
    when the exception of [log_work] leaves the function. *)
Definition submit_time_entries (entries : list entry) : option results :=
  let '(running, r) := submit_loop entries in
  if running then Some r else None.

(** (ghost) The calls made to [log_work] during the run, whether the run
    returned or not; the call that raised is the last of them. *)
Definition calls_made (entries : list entry) : list worklog :=
  submitted (snd (submit_loop entries)).
End Submit.

(** ** Auxiliary definitions used by the statements *)

(** The loop of [merge_overlapping_activities] as a recursion on the rest
    of the sorted list; [merge_scan_fold] relates it to the fold. *)
Fixpoint merge_scan (current : activity) (rest : list activity) : list activity :=
  match rest with
  | [] => [current]
  | next_activity :: rest' =>
      if mergeable current next_activity
      then merge_scan (merge_pair current next_activity) rest'
      else current :: merge_scan next_activity rest'
  end.

(** The merge threshold in microseconds. *)
Definition threshold_us : Z := ACTIVITY_MERGE_THRESHOLD * 60000000.

(** [a] ends more than the threshold before [b] starts. *)
Definition apart (a b : activity) : Prop := end_key a + threshold_us < start_key b.

(** Earliest start and latest end of a sequence, [None] when it is empty. *)
Definition earliest (l : list activity) : option Z :=
  foldr (fun a o => Some (from_option (Z.min (start_key a)) (start_key a) o)) None l.

Definition latest (l : list activity) : option Z :=
  foldr (fun a o => Some (from_option (Z.max (end_key a)) (end_key a) o)) None l.

Definition covered_span (l : list activity) : option (Z * Z) :=
  lo ← earliest l; hi ← latest l; Some (lo, hi).

(** [duration_minutes] holds [(end_time - start_time)] in minutes. *)
Definition duration_recomputed (a : activity) : Prop :=
  extra a !! "duration_minutes"
  = Some (VNum (Datetime.total_minutes (Datetime.sub (end_time a) (start_time a)))).

(** The loop of [fill_time_gaps] as a walk over consecutive pairs. *)
Fixpoint fill_walk (min_gap_minutes : Z) (working_hours : Z * Z)
    (prev : activity) (rest : list activity) : option (list activity) :=
  match rest with
  | [] => Some []
  | curr :: rest' =>
      gap ← gap_between (end_time prev) (start_time curr) min_gap_minutes working_hours;
      tail ← fill_walk min_gap_minutes working_hours curr rest';
      Some (gap ++ curr :: tail)
  end.

(** A synthesized gap of at least [m] minutes. *)
Definition is_gap (m : Z) (g : activity) : Prop :=
  source g = "time_gap"
  /\ duration_recomputed g
  /\ m * 60000000 <= end_key g - start_key g.

(** [ys] is [xs] with gaps of at least [m] minutes put between its
    elements. *)
Inductive interleaved (m : Z) : list activity -> list activity -> Prop :=
| interleaved_nil : interleaved m [] []
| interleaved_keep x xs ys :
    interleaved m xs ys -> interleaved m (x :: xs) (x :: ys)
| interleaved_gap g xs ys :
    is_gap m g -> interleaved m xs ys -> interleaved m xs (g :: ys).

(** [h]:00:00 on the calendar day of [t], in the zone of [t]: what
    [t.replace(hour=h, minute=0, second=0, microsecond=0)] returns. *)
Definition on_day_of (t : datetime) (h : Z) : datetime :=
  mk_datetime (year t) (month t) (day t) h 0 0 0 (utcoffset t).

(** The working window of the calendar day on which [prev] ends, cut down
    to the silence between [prev] and [curr]: from
    [max(prev.end_time, day_start)] to [min(curr.start_time, day_end)]. *)
Definition clip_start (ws : Z) (prev : activity) : datetime :=
  Datetime.max (end_time prev) (on_day_of (end_time prev) ws).

Definition clip_end (we : Z) (prev curr : activity) : datetime :=
  Datetime.min (start_time curr) (on_day_of (end_time prev) we).

(** [g] is the gap synthesized between [prev] and [curr]: it fills the
    clipped window, which is at least [m] minutes long. *)
Definition clipped_gap (m ws we : Z) (prev curr g : activity) : Prop :=
  source g = "time_gap"
  /\ start_time g = clip_start ws prev
  /\ end_time g = clip_end we prev curr
  /\ duration_recomputed g
  /\ m * 60000000 <= end_key g - start_key g.

(** No gap is due between [prev] and [curr]: the silence between them, or
    what the window of [prev]'s day leaves of it, is shorter than [m]
    minutes. *)
Definition no_gap_due (m ws we : Z) (prev curr : activity) : Prop :=
  start_key curr - end_key prev < m * 60000000
  \/ Datetime.instant (clip_end we prev curr)
     - Datetime.instant (clip_start ws prev) < m * 60000000.

(** [ys] is [xs] with, between two neighbours, the clipped gap where one
    is due and nothing where none is. *)
Inductive window_filled (m ws we : Z) : list activity -> list activity -> Prop :=
| window_filled_nil : window_filled m ws we [] []
| window_filled_one a : window_filled m ws we [a] [a]
| window_filled_keep prev curr xs ys :
    no_gap_due m ws we prev curr ->
    window_filled m ws we (curr :: xs) (curr :: ys) ->
    window_filled m ws we (prev :: curr :: xs) (prev :: curr :: ys)
| window_filled_gap prev curr g xs ys :
    clipped_gap m ws we prev curr g ->
    window_filled m ws we (curr :: xs) (curr :: ys) ->
    window_filled m ws we (prev :: curr :: xs) (prev :: g :: curr :: ys).

(** ** Sample data *)

(** A UTC datetime on the minute. *)
Definition utc (y m d h mi : Z) : datetime := mk_datetime y m d h mi 0 0 0.

(** Two overlapping activities of ten minutes each. *)
Definition ex_meeting : activity :=
  {| source := "outlook_calendar"; title := "Standup";
     start_time := utc 2024 1 1 9 0; end_time := utc 2024 1 1 9 10;
     extra := {[ "task_type" := VStr "Meeting" ]} |}.

Definition ex_coding : activity :=
  {| source := "wakatime"; title := "Coding";
     start_time := utc 2024 1 1 9 5; end_time := utc 2024 1 1 9 15;
     extra := {[ "task_type" := VStr "Development" ]} |}.

(** A chat of a single message, as the Teams agent builds it: it starts
    and ends at the message's time and its [duration_minutes] is
    [max(duration, 1)], that is 1. *)
Definition ex_chat : activity :=
  {| source := "teams_chat"; title := "Chat in Chat";
     start_time := utc 2024 1 1 9 0; end_time := utc 2024 1 1 9 0;
     extra := {[ "duration_minutes" := VNum (inject_Z 1);
                 "message_count" := VNum (inject_Z 1) ]} |}.

(** The spec's donor case: A from 09:00 to 09:05, a meeting, and B from
    09:02 to 09:30, development. *)
Definition ex_a : activity :=
  {| source := "A"; title := "a";
     start_time := utc 2024 1 1 9 0; end_time := utc 2024 1 1 9 5;
     extra := {[ "task_type" := VStr "Meeting" ]} |}.

Definition ex_b : activity :=
  {| source := "B"; title := "b";
     start_time := utc 2024 1 1 9 2; end_time := utc 2024 1 1 9 30;
     extra := {[ "task_type" := VStr "Development" ]} |}.

(** An hour of the day, as [datetime.replace] accepts it. *)
Definition valid_hour (h : Z) : Prop := 0 <= h < 24.

(** The spec's boundary case: one activity ends at 09:00, the next starts
    at 12:00 the same day. *)
Definition ex_morning : activity :=
  {| source := "outlook_calendar"; title := "Planning";
     start_time := utc 2024 1 1 8 0; end_time := utc 2024 1 1 9 0;
     extra := ∅ |}.

Definition ex_noon : activity :=
  {| source := "teams_meeting"; title := "Review";
     start_time := utc 2024 1 1 12 0; end_time := utc 2024 1 1 13 0;
     extra := ∅ |}.

(** The spec's clip case: one activity ends at 23:50, the next starts at
    08:00 the next day. *)
Definition ex_night : activity :=
  {| source := "github_commit"; title := "Commit: late";
     start_time := utc 2024 1 1 23 35; end_time := utc 2024 1 1 23 50;
     extra := ∅ |}.

Definition ex_next_morning : activity :=
  {| source := "outlook_calendar"; title := "Breakfast sync";
     start_time := utc 2024 1 2 8 0; end_time := utc 2024 1 2 8 30;
     extra := ∅ |}.

(** An activity that ends at 06:00, before the working day starts. *)
Definition ex_dawn : activity :=
  {| source := "github_commit"; title := "Commit: early";
     start_time := utc 2024 1 1 5 30; end_time := utc 2024 1 1 6 0;
     extra := ∅ |}.

(** ** Definitions for the daily grouping *)

(** The key under which [group_activities_by_day] files an activity. *)
Definition day_key (a : activity) : string :=
  Datetime.strftime_ymd (start_time a).

(** [TIME_ZONE = 'UTC'] in [src/config/config.py]: offset zero. *)
Definition TIME_ZONE : Z := 0.

Definition days_in_month (y m : Z) : Z :=
  match m with
  | 2 => if Datetime.is_leap y then 29 else 28
  | 4 | 6 | 9 | 11 => 30
  | _ => 31
  end.

(** The field ranges of a [datetime] object. *)
Definition valid_datetime (t : datetime) : bool :=
  (1 <=? year t) && (year t <=? 9999)
  && (1 <=? month t) && (month t <=? 12)
  && (1 <=? day t) && (day t <=? days_in_month (year t) (month t))
  && (0 <=? hour t) && (hour t <? 24)
  && (0 <=? minute t) && (minute t <? 60)
  && (0 <=? second t) && (second t <? 60)
  && (0 <=? microsecond t) && (microsecond t <? 1000000).

(** Follows the spec's words for C8: [local] is the instant [t] expressed
    in the configured reporting time zone. *)
Definition in_reporting_zone (t local : datetime) : Prop :=
  valid_datetime local = true
  /\ utcoffset local = TIME_ZONE
  /\ Datetime.instant local = Datetime.instant t.

(** The spec's example: 2024-01-01T23:00Z to 2024-01-02T01:00Z. *)
Definition ex_late : activity :=
  {| source := "teams_meeting"; title := "Late call";
     start_time := utc 2024 1 1 23 0; end_time := utc 2024 1 2 1 0;
     extra := ∅ |}.

(** The same wall-clock times carried at UTC-05:00, as
    [datetime.fromisoformat('2024-01-01T23:00:00-05:00')] gives them. *)
Definition ex_east : activity :=
  {| source := "outlook_calendar"; title := "Late call";
     start_time := mk_datetime 2024 1 1 23 0 0 0 (-18000);
     end_time := mk_datetime 2024 1 2 1 0 0 0 (-18000);
     extra := ∅ |}.

(** ** Definitions for the submission step *)

(** The ticket is present, truthy and not the sentinel. *)
Definition ticket_usable (e : entry) : bool :=
  match jira_issue e with
  | Some v => py_truthy v && negb (is_unknown v)
  | None => false
  end.

(** The product without rounding: what [x * 60] is on an int, and on a
    float whose product is a float. *)
Definition exact_times60 (q : Q) : Q := (q * inject_Z 60)%Q.

Section SubmitSpec.
Variable log_work : nat -> worklog -> outcome.
Variable times60 : Q -> Q.

(** The entry passes both tests of the loop. *)
Definition is_submitted (e : entry) : bool :=
  ticket_usable e && (60 <=? whole_seconds times60 e).

Definition worklog_of (e : entry) : worklog :=
  {| issue_key := default VNone (jira_issue e);
     time_spent_seconds := whole_seconds times60 e;
     comment := default "Work logged by ChronoLog" (description e);
     started := entry_start_time e |}.

(** How the calls for the entries [subs] end, the first of them being
    call number [k] of the run. *)
Fixpoint call_outcomes (k : nat) (subs : list entry) : list outcome :=
  match subs with
  | [] => []
  | e :: subs' => log_work k (worklog_of e) :: call_outcomes (S k) subs'
  end.
End SubmitSpec.

Definition is_logged (o : outcome) : bool :=
  match o with Logged => true | _ => false end.

Definition is_failed (o : outcome) : bool :=
  match o with Failed => true | _ => false end.

Definition is_raised (o : outcome) : bool :=
  match o with Raised => true | _ => false end.

(** The number of calls made when they end as [outs] would have them:
    all of them, or those up to the first that raises, that one
    included. *)
Fixpoint calls_until_raise (outs : list outcome) : nat :=
  match outs with
  | [] => 0%nat
  | Raised :: _ => 1%nat
  | _ :: outs' => S (calls_until_raise outs')
  end.

(** [round(x)]: to the nearest integer, ties to even. *)
Definition py_round (x : Q) : Z :=
  let f := Qfloor x in
  match Qcompare (x - inject_Z f) (1 # 2) with
  | Lt => f
  | Gt => f + 1
  | Eq => if Z.even f then f else f + 1
  end.

(** Follows the spec's words for C9: the ticket is absent or the sentinel,
    or the duration rounds to less than 60 seconds. *)
Definition spec_excluded (e : entry) : Prop :=
  jira_issue e = None
  \/ jira_issue e = Some (VStr "unknown")
  \/ py_round (default 0%Q (duration_minutes e) * inject_Z 60)%Q < 60.

(** 59.7 seconds of work on a real ticket. *)
Definition ex_short : entry :=
  {| jira_issue := Some (VStr "PROJ-1");
     duration_minutes := Some (199 # 200);
     description := Some "Review";
     entry_start_time := Some (utc 2024 1 1 9 0) |}.

(** Half an hour of work, with the ticket cell left empty. *)
Definition ex_blank : entry :=
  {| jira_issue := Some (VStr "");
     duration_minutes := Some (inject_Z 30);
     description := Some "Planning";
     entry_start_time := Some (utc 2024 1 1 10 0) |}.

(** Forty-five minutes of work on a real ticket. *)
Definition ex_logged : entry :=
  {| jira_issue := Some (VStr "PROJ-2");
     duration_minutes := Some (inject_Z 45);
     description := Some "Implementation";
     entry_start_time := Some (utc 2024 1 1 11 0) |}.

(** A run in which Jira refuses the second worklog. *)
Definition ex_second_refused (k : nat) (w : worklog) : outcome :=
  match k with 1%nat => Failed | _ => Logged end.

(** A run in which the Jira client cannot be obtained. *)
Definition ex_no_client (k : nat) (w : worklog) : outcome := Raised.

(** Five entries, three of them equal and fit to be logged. *)
Definition ex_entries : list entry :=
  [ex_logged; ex_short; ex_logged; ex_blank; ex_logged].

(** What the step returns for them when Jira refuses the second
    worklog. *)
Definition ex_results : results :=
  mk_results 2 1 2 [ex_logged]
    [worklog_of exact_times60 ex_logged;
     worklog_of exact_times60 ex_logged;
     worklog_of exact_times60 ex_logged].

(** ** Definitions for the further properties *)

(** The interval does not end before it starts. *)
Definition valid_interval (a : activity) : Prop := start_key a <= end_key a.

(** [b] spans the whole of [a]. *)
Definition covers (b a : activity) : Prop :=
  start_key b <= start_key a /\ end_key a <= end_key b.

(** [a] has ended when [b] starts. *)
Definition no_overlap (a b : activity) : Prop := end_key a <= start_key b.

(** Two neighbours of [l] are at least [m] minutes apart, end to start. *)
Definition wide_silence (m : Z) (l : list activity) : Prop :=
  exists i prev curr,
    l !! i = Some prev /\ l !! S i = Some curr
    /\ m * 60000000 <= start_key curr - end_key prev.

(** ** The time-spent string of [JiraService.log_work] *)

(** ASCII whitespace, as [str.strip()] removes it. *)
Definition is_space (c : Ascii.ascii) : bool :=
  let n := Ascii.N_of_ascii c in
  ((9 <=? n) && (n <=? 13) || (28 <=? n) && (n <=? 32))%N.

Fixpoint lstrip (s : string) : string :=
  match s with
  | String c s' => if is_space c then lstrip s' else s
  | EmptyString => EmptyString
  end.

(** [s.strip()]. *)
Definition py_strip (s : string) : string :=
  String.rev (lstrip (String.rev (lstrip s))).

(** The [timeSpent] argument that [log_work] computes from the seconds
    and passes to [jira.add_worklog]. *)
Definition time_spent_string (time_spent_seconds : Z) : string :=
  let hours := time_spent_seconds / 3600 in
  let minutes := (time_spent_seconds mod 3600) / 60 in
  let time_spent := "" in
  let time_spent :=
    if 0 <? hours then time_spent +:+ pretty hours +:+ "h " else time_spent in
  let time_spent :=
    if 0 <? minutes then time_spent +:+ pretty minutes +:+ "m" else time_spent in
  let time_spent := py_strip time_spent in
  if String.eqb time_spent "" then "1m" else time_spent.

(** ** [calculate_daily_totals] *)

(** What [0 + v] adds: numbers only, and [bool] is a number; anything
    else is a [TypeError]. *)
Definition as_number (v : value) : option Q :=
  match v with
  | VNum q => Some q
  | VBool b => Some (if b then 1%Q else 0%Q)
  | _ => None
  end.

(** A nested payload (a dict or a list) cannot be a dict key. *)
Definition hashable (v : value) : bool :=
  match v with
  | VOpaque _ _ => false
  | _ => true
  end.

(** [a == b] on hashable values: numbers by value, aware datetimes by
    instant. *)
Definition py_eq (a b : value) : bool :=
  match as_number a, as_number b with
  | Some x, Some y => Qeq_bool x y
  | None, None =>
      match a, b with
      | VNone, VNone => true
      | VStr s, VStr t => String.eqb s t
      | VTime s, VTime t => Datetime.instant s =? Datetime.instant t
      | _, _ => false
      end
  | _, _ => false
  end.

(** [a + b], kept reduced. *)
Definition py_add (a b : Q) : Q := Qred (a + b).

(** [if k not in d: d[k] = 0] followed by [d[k] += q], on a dict kept in
    insertion order. *)
Fixpoint add_to (k : value) (q : Q) (d : list (value * Q)) : list (value * Q) :=
  match d with
  | [] => [(k, py_add 0 q)]
  | (k', x) :: d' =>
      if py_eq k' k then (k', py_add x q) :: d' else (k', x) :: add_to k q d'
  end.

Record day_totals := mk_day_totals {
  total_minutes : Q;
  billable_minutes : Q;
  task_types : list (value * Q);
  jira_issues : list (value * Q)
}.

(** [activity.get('duration_minutes', 0)], as the number it is added as. *)
Definition duration_of (a : activity) : option Q :=
  as_number (default (VNum 0) (extra a !! "duration_minutes")).

Definition task_type_of (a : activity) : value :=
  default (VStr "Unknown") (extra a !! "task_type").

Definition jira_issue_of (a : activity) : value :=
  default (VStr "unknown") (extra a !! "jira_issue").

Definition billable_of (a : activity) : value :=
  default (VBool false) (extra a !! "billable").

(** The body of the inner loop; [None] is a [TypeError]. *)
Definition totals_step (t : day_totals) (a : activity) : option day_totals :=
  duration ← duration_of a;
  if hashable (task_type_of a) && hashable (jira_issue_of a)
  then Some {| total_minutes := py_add (total_minutes t) duration;
               billable_minutes :=
                 if py_truthy (billable_of a)
                 then py_add (billable_minutes t) duration
                 else billable_minutes t;
               task_types := add_to (task_type_of a) duration (task_types t);
               jira_issues := add_to (jira_issue_of a) duration (jira_issues t) |}
  else None.

Definition day_totals_from (t : day_totals) (day_activities : list activity)
    : option day_totals :=
  fold_left (fun o a => t ← o; totals_step t a) day_activities (Some t).

Definition day_totals_of (day_activities : list activity) : option day_totals :=
  day_totals_from (mk_day_totals 0 0 [] []) day_activities.

Definition calculate_daily_totals (activities : list activity)
    : option (gmap string day_totals) :=
  let days := group_activities_by_day activities in
  rows ← mapM (fun '(day_str, day_activities) =>
                 t ← day_totals_of day_activities; Some (day_str, t))
            (map_to_list days);
  Some (list_to_map rows).

(** The sum of a list of numbers. *)
Definition Qsum (l : list Q) : Q := foldr Qplus 0%Q l.

(** The activities that start on day [d]. *)
Definition on_day (d : string) (activities : list activity) : list activity :=
  filter (fun a => day_key a = d) activities.

(** The minutes an activity counts for: its [duration_minutes], and 0
    when it has none. *)
Definition minutes_of (a : activity) : Q := default 0%Q (duration_of a).

(** An hour of billable development, followed by an untracked gap and a
    meeting without annotations. *)
Definition ex_billed : activity :=
  {| source := "wakatime"; title := "Coding";
     start_time := utc 2024 1 1 9 0; end_time := utc 2024 1 1 10 0;
     extra := {[ "duration_minutes" := VNum (inject_Z 60);
                 "task_type" := VStr "Development";
                 "jira_issue" := VStr "PROJ-1";
                 "billable" := VBool true ]} |}.

Definition ex_timeline : list activity :=
  [ex_billed;
   gap_activity (utc 2024 1 1 10 0) (utc 2024 1 1 12 0) (inject_Z 120);
   ex_noon].

(** The totals of that day. *)
Definition ex_day_totals : day_totals :=
  {| total_minutes := inject_Z 180;
     billable_minutes := inject_Z 60;
     task_types := [(VStr "Development", inject_Z 60); (VStr "Unknown", inject_Z 120)];
     jira_issues := [(VStr "PROJ-1", inject_Z 60); (VStr "unknown", inject_Z 120)] |}.

(** ** Date arithmetic of the datetime library *)

Definition DAYS_BEFORE_MONTH (m : Z) : Z :=
  match m with
  | 1 => 0 | 2 => 31 | 3 => 59 | 4 => 90 | 5 => 120 | 6 => 151
  | 7 => 181 | 8 => 212 | 9 => 243 | 10 => 273 | 11 => 304 | 12 => 334
  | _ => -1
  end.

Definition DAYS_IN_MONTH (m : Z) : Z :=
  match m with
  | 1 => 31 | 2 => 28 | 3 => 31 | 4 => 30 | 5 => 31 | 6 => 30
  | 7 => 31 | 8 => 31 | 9 => 30 | 10 => 31 | 11 => 30 | 12 => 31
  | _ => -1
  end.

(** [date.fromordinal(n)], as year, month and day. *)
Definition ord2ymd (n : Z) : Z * Z * Z :=
  let n := n - 1 in
  let n400 := n / 146097 in
  let n := n mod 146097 in
  let year := n400 * 400 + 1 in
  let n100 := n / 36524 in
  let n := n mod 36524 in
  let n4 := n / 1461 in
  let n := n mod 1461 in
  let n1 := n / 365 in
  let n := n mod 365 in
  let year := year + n100 * 100 + n4 * 4 + n1 in
  if (n1 =? 4) || (n100 =? 4) then (year - 1, 12, 31)
  else
    let leapyear := (n1 =? 3) && (negb (n4 =? 24) || (n100 =? 3)) in
    let month := Z.shiftr (n + 50) 5 in
    let preceding :=
      DAYS_BEFORE_MONTH month + (if (2 <? month) && leapyear then 1 else 0) in
    if n <? preceding
    then
      let month := month - 1 in
      let preceding :=
        preceding
        - (DAYS_IN_MONTH month + (if (month =? 2) && leapyear then 1 else 0)) in
      (year, month, n - preceding + 1)
    else (year, month, n - preceding + 1).

(** The ordinal of 9999-12-31. *)
Definition MAXORDINAL : Z := 3652059.

(** [t + timedelta(days=n)]: the date moves, the time of day and the zone
    stay; [None] is the [OverflowError] outside years 1..9999. *)
Definition add_days (t : datetime) (n : Z) : option datetime :=
  let o := Datetime.ymd2ord (year t) (month t) (day t) + n in
  if (1 <=? o) && (o <=? MAXORDINAL)
  then let '(y, m, d) := ord2ymd o in
       Some {| year := y; month := m; day := d;
               hour := hour t; minute := minute t; second := second t;
               microsecond := microsecond t; utcoffset := utcoffset t |}
  else None.

(** [t.replace(hour=23, minute=59, second=59)]. *)
Definition end_of_day (t : datetime) : datetime :=
  {| year := year t; month := month t; day := day t;
     hour := 23; minute := 59; second := 59;
     microsecond := microsecond t; utcoffset := utcoffset t |}.

(** The separator of a date range. *)
Definition colon : Ascii.ascii := Ascii.ascii_of_N 58.

(** [c in s]. *)
Fixpoint contains (c : Ascii.ascii) (s : string) : bool :=
  match s with
  | EmptyString => false
  | String x s' => Ascii.eqb x c || contains c s'
  end.

(** [s.split(c)]. *)
Fixpoint split_on (c : Ascii.ascii) (s : string) : list string :=
  match s with
  | EmptyString => [EmptyString]
  | String x s' =>
      if Ascii.eqb x c then EmptyString :: split_on c s'
      else match split_on c s' with
           | h :: t => String x h :: t
           | [] => [String x EmptyString]
           end
  end.

(** How often [c] occurs in [s]. *)
Fixpoint count_char (c : Ascii.ascii) (s : string) : nat :=
  match s with
  | EmptyString => O
  | String x s' => ((if Ascii.eqb x c then 1 else 0) + count_char c s')%nat
  end.

(** ** [get_yesterday], [get_date_range] and the dates of [auto_run] *)

Section DateRange.
(** [datetime.strptime(s, '%Y-%m-%d')], as year, month and day; [None] is
    its [ValueError]. *)
Variable strptime_ymd : string -> option (Z * Z * Z).
(** [datetime.now(tz)]. *)
Variable now : datetime.

(** [datetime.strptime(s, '%Y-%m-%d').replace(tzinfo=tz)]. *)
Definition parse_date (s : string) : option datetime :=
  '(y, m, d) ← strptime_ymd s;
  Some (mk_datetime y m d 0 0 0 0 TIME_ZONE).

Definition get_yesterday : option (datetime * datetime) :=
  today ← Datetime.replace_hour now 0;
  yesterday ← add_days today (-1);
  Some (yesterday, today).

Definition get_date_range (date_str : option string) (days : Z)
    : option (datetime * datetime) :=
  match date_str with
  | None => get_yesterday
  | Some date_str =>
      if String.eqb date_str "" then get_yesterday
      else if contains colon date_str then
        match split_on colon date_str with
        | [start_str; end_str] =>
            start_date ← parse_date start_str;
            end_date ← parse_date end_str;
            Some (start_date, end_of_day end_date)
        | _ => None
        end
      else
        start_date ← parse_date date_str;
        end_date ← add_days start_date days;
        Some (start_date, end_of_day end_date)
  end.

(** The date range that [auto_run] in [src/main.py] works out from
    [args.date]. *)
Definition auto_run_date_range (date : option string)
    : option (datetime * datetime) :=
  match date with
  | None => get_yesterday
  | Some date =>
      if String.eqb date "" then get_yesterday
      else if contains colon date then
        match split_on colon date with
        | [start_str; end_str] =>
            start_date ← parse_date start_str;
            end_date ← parse_date end_str;
            Some (start_date, end_of_day end_date)
        | _ => None
        end
      else
        start_date ← parse_date date;
        Some (start_date, end_of_day start_date)
  end.
End DateRange.

(** A parser that knows one date, and a clock, for the examples. *)
Definition ex_strptime (s : string) : option (Z * Z * Z) :=
  if String.eqb s "2024-01-01" then Some (2024, 1, 1)
  else if String.eqb s "2023-12-25" then Some (2023, 12, 25)
  else None.

Definition ex_now : datetime := mk_datetime 2024 1 2 15 30 12 250000 0.

(** ** [format_duration], on an int number of minutes *)

Definition format_duration (minutes : Z) : string :=
  let hours := minutes / 60 in
  let mins := minutes mod 60 in
  if (0 <? hours) && (0 <? mins)
  then pretty hours +:+ "h " +:+ pretty mins +:+ "m"
  else if 0 <? hours then pretty hours +:+ "h"
  else pretty mins +:+ "m".

(** The proofs unfold these by hand. *)
Arguments Datetime.instant : simpl never.
Arguments Datetime.total_minutes : simpl never.
Arguments Datetime.total_seconds : simpl never.
Arguments Datetime.replace_hour : simpl never.
Arguments Datetime.strftime_ymd : simpl never.
Arguments mergeable : simpl never.
Arguments merge_pair : simpl never.
Arguments gap_between : simpl never.
Arguments gap_activity : simpl never.

(** * Properties *)

(** ** The stable sort *)

Section SortedFacts.
Context {A : Type} (key : A -> Z).

Lemma insert_by_perm x l : insert_by key x l ≡ₚ x :: l.
Proof.
  induction l as [|y l IH]; simpl; [done|].
  destruct (key x <=? key y); [done|].
  rewrite IH. apply Permutation_swap.
Qed.

Lemma py_sorted_perm l : py_sorted key l ≡ₚ l.
Proof.
  induction l as [|x l IH]; simpl; [done|].
  by rewrite insert_by_perm, IH.
Qed.

Lemma py_sorted_length l : length (py_sorted key l) = length l.
Proof. by rewrite py_sorted_perm. Qed.

Lemma insert_by_ascending x l :
  ascending key l -> ascending key (insert_by key x l).
Proof.
  unfold ascending. induction l as [|y l IH]; simpl; intros HS.
  - repeat constructor.
  - destruct (Z.leb_spec (key x) (key y)) as [Hle|Hlt].
    + constructor; [done|]. by constructor.
    + apply Sorted_inv in HS as [HS Hd].
      constructor; [by apply IH|].
      destruct l as [|z l]; simpl.
      * constructor. lia.
      * destruct (key x <=? key z); constructor; [lia|].
        by inversion Hd.
Qed.

Lemma py_sorted_ascending l : ascending key (py_sorted key l).
Proof.
  induction l as [|x l IH]; simpl; [constructor|].
  by apply insert_by_ascending.
Qed.

Lemma insert_by_head x l :
  HdRel (fun a b => key a <= key b) x l -> insert_by key x l = x :: l.
Proof.
  destruct 1 as [|y l Hle]; simpl; [done|].
  by destruct (Z.leb_spec (key x) (key y)); [|lia].
Qed.

(** Sorting is the identity on a sequence that is already ascending:
    the sort is stable, so equal keys keep their order. *)
Lemma py_sorted_id l : ascending key l -> py_sorted key l = l.
Proof.
  unfold ascending. induction l as [|x l IH]; simpl; intros HS; [done|].
  apply Sorted_inv in HS as [HS Hd].
  rewrite IH by done. by apply insert_by_head.
Qed.
End SortedFacts.

(** ** Exact arithmetic behind the float comparisons *)

Lemma Qle_bool_total_minutes_l td t :
  Qle_bool (Datetime.total_minutes td) (inject_Z t) = (td <=? t * 60000000).
Proof.
  apply Bool.eq_iff_eq_true.
  rewrite Qle_bool_iff, Z.leb_le. unfold Datetime.total_minutes.
  rewrite Qred_correct. unfold Qle; simpl. lia.
Qed.

Lemma Qle_bool_total_minutes_r td t :
  Qle_bool (inject_Z t) (Datetime.total_minutes td) = (t * 60000000 <=? td).
Proof.
  apply Bool.eq_iff_eq_true.
  rewrite Qle_bool_iff, Z.leb_le. unfold Datetime.total_minutes.
  rewrite Qred_correct. unfold Qle; simpl. lia.
Qed.

Lemma Qle_bool_total_seconds a b :
  Qle_bool (Datetime.total_seconds a) (Datetime.total_seconds b) = (a <=? b).
Proof.
  apply Bool.eq_iff_eq_true.
  rewrite Qle_bool_iff, Z.leb_le. unfold Datetime.total_seconds.
  rewrite !Qred_correct. unfold Qle; simpl. lia.
Qed.

(** ** The merge engine *)

Lemma mergeable_false current next_activity :
  mergeable current next_activity = false <-> apart current next_activity.
Proof.
  unfold mergeable, apart, threshold_us, Datetime.le, Datetime.sub,
    start_key, end_key, ACTIVITY_MERGE_THRESHOLD.
  rewrite Qle_bool_total_minutes_l, orb_false_iff, !Z.leb_gt. lia.
Qed.

Lemma donor_cases current next_activity :
  donor current next_activity =
    if end_key next_activity - start_key next_activity
       <? end_key current - start_key current
    then current else next_activity.
Proof.
  unfold donor. rewrite Qle_bool_total_seconds.
  unfold Datetime.sub, start_key, end_key.
  rewrite Z.ltb_antisym. done.
Qed.

Lemma merge_pair_start_key c n :
  start_key (merge_pair c n) = Z.min (start_key c) (start_key n).
Proof.
  unfold start_key; simpl. unfold Datetime.min, Datetime.lt.
  destruct (Z.ltb_spec (Datetime.instant (start_time n))
              (Datetime.instant (start_time c))); lia.
Qed.

Lemma merge_pair_end_key c n :
  end_key (merge_pair c n) = Z.max (end_key c) (end_key n).
Proof.
  unfold end_key; simpl. unfold Datetime.max, Datetime.gt, Datetime.lt.
  destruct (Z.ltb_spec (Datetime.instant (end_time c))
              (Datetime.instant (end_time n))); lia.
Qed.

(** The fold of the source and the recursion agree. *)
Lemma merge_scan_fold rest merged current :
  (let '(m, c) := fold_left merge_step rest (merged, current) in m ++ [c])
  = merged ++ merge_scan current rest.
Proof.
  revert merged current.
  induction rest as [|n rest IH]; intros merged current; simpl; [done|].
  destruct (mergeable current n).
  - apply IH.
  - rewrite IH. by rewrite <- app_assoc.
Qed.

Lemma merge_overlapping_activities_scan activities :
  merge_overlapping_activities activities =
    match py_sorted start_key activities with
    | [] => []
    | first :: rest => merge_scan first rest
    end.
Proof.
  unfold merge_overlapping_activities.
  destruct (py_sorted start_key activities) as [|first rest]; [done|].
  apply (merge_scan_fold rest [] first).
Qed.

Lemma merge_scan_length current rest :
  (length (merge_scan current rest) <= S (length rest))%nat.
Proof.
  revert current. induction rest as [|n rest IH]; intros current; simpl; [done|].
  destruct (mergeable current n); simpl.
  - specialize (IH (merge_pair current n)). lia.
  - specialize (IH n). lia.
Qed.

(** On an ascending input the scan yields an ascending sequence whose
    neighbours are more than the threshold apart, and whose first element
    starts when [current] starts. *)
Lemma merge_scan_sorted current rest :
  ascending start_key (current :: rest) ->
  exists h t,
    merge_scan current rest = h :: t
    /\ start_key h = start_key current
    /\ ascending start_key (h :: t)
    /\ Sorted apart (h :: t).
Proof.
  unfold ascending. revert current.
  induction rest as [|n rest IH]; intros current HS; simpl.
  - exists current, []. repeat split; repeat constructor.
  - apply Sorted_inv in HS as [HS Hd]. apply HdRel_inv in Hd.
    destruct (mergeable current n) eqn:Hm.
    + destruct (IH (merge_pair current n)) as (h & t & -> & Hh & ? & ?).
      { apply Sorted_inv in HS as [HS Hd'].
        constructor; [done|].
        destruct Hd' as [|y l Hy]; constructor.
        rewrite merge_pair_start_key. lia. }
      exists h, t. repeat split; [|done..].
      rewrite Hh, merge_pair_start_key. lia.
    + destruct (IH n HS) as (h & t & -> & Hh & ? & ?).
      apply mergeable_false in Hm.
      exists current, (h :: t). repeat split.
      * constructor; [done|]. constructor. lia.
      * constructor; [done|]. constructor. unfold apart in *. lia.
Qed.

(** A sequence whose neighbours are apart is left alone by the scan. *)
Lemma merge_scan_apart current rest :
  Sorted apart (current :: rest) -> merge_scan current rest = current :: rest.
Proof.
  revert current. induction rest as [|n rest IH]; intros current HS; simpl; [done|].
  apply Sorted_inv in HS as [HS Hd]. apply HdRel_inv in Hd.
  apply mergeable_false in Hd. rewrite Hd. by rewrite IH.
Qed.

Lemma earliest_perm l l' : l ≡ₚ l' -> earliest l = earliest l'.
Proof.
  induction 1 as [|x l l' _ IH|x y l|l l' l'' _ IH1 _ IH2]; simpl.
  - done.
  - by rewrite IH.
  - destruct (earliest l); simpl; f_equal; lia.
  - congruence.
Qed.

Lemma latest_perm l l' : l ≡ₚ l' -> latest l = latest l'.
Proof.
  induction 1 as [|x l l' _ IH|x y l|l l' l'' _ IH1 _ IH2]; simpl.
  - done.
  - by rewrite IH.
  - destruct (latest l); simpl; f_equal; lia.
  - congruence.
Qed.

Lemma earliest_scan current rest :
  earliest (merge_scan current rest) = earliest (current :: rest).
Proof.
  revert current. induction rest as [|n rest IH]; intros current; simpl; [done|].
  destruct (mergeable current n); simpl.
  - rewrite IH; simpl. rewrite merge_pair_start_key.
    destruct (earliest rest); simpl; f_equal; lia.
  - by rewrite IH.
Qed.

Lemma latest_scan current rest :
  latest (merge_scan current rest) = latest (current :: rest).
Proof.
  revert current. induction rest as [|n rest IH]; intros current; simpl; [done|].
  destruct (mergeable current n); simpl.
  - rewrite IH; simpl. rewrite merge_pair_end_key.
    destruct (latest rest); simpl; f_equal; lia.
  - by rewrite IH.
Qed.

Lemma covered_span_merge activities :
  covered_span (merge_overlapping_activities activities) = covered_span activities.
Proof.
  rewrite merge_overlapping_activities_scan. unfold covered_span.
  rewrite <- (earliest_perm _ _ (py_sorted_perm start_key activities)).
  rewrite <- (latest_perm _ _ (py_sorted_perm start_key activities)).
  destruct (py_sorted start_key activities) as [|first rest]; [done|].
  by rewrite earliest_scan, latest_scan.
Qed.

Lemma merge_pair_recomputed current next_activity :
  duration_recomputed (merge_pair current next_activity).
Proof.
  unfold duration_recomputed, merge_pair. cbn [extra start_time end_time].
  apply lookup_insert_eq.
Qed.

Lemma merge_scan_provenance (P : activity -> Prop) current rest :
  (forall c n, P (merge_pair c n)) ->
  P current -> Forall P rest -> Forall P (merge_scan current rest).
Proof.
  intros Hmerge. revert current.
  induction rest as [|n rest IH]; intros current Hc Hrest; simpl.
  - by constructor.
  - apply Forall_cons in Hrest as [Hn Hrest].
    destruct (mergeable current n).
    + by apply IH.
    + constructor; [done|]. by apply IH.
Qed.

(** *** C1 *)

(** C1, as stated, fails: the two sample activities last ten minutes each
    and are merged, and the merged activity takes [task_type] from the
    second one ([next]), not from [current]. *)
Lemma C1_tie_takes_next :
  end_key ex_meeting - start_key ex_meeting = end_key ex_coding - start_key ex_coding
  /\ (exists m, merge_overlapping_activities [ex_meeting; ex_coding] = [m]
        /\ extra m !! "task_type" = extra ex_coding !! "task_type"
        /\ extra m !! "task_type" <> extra ex_meeting !! "task_type").
Proof.
  split; [reflexivity|].
  exists (merge_pair ex_meeting ex_coding).
  split; [reflexivity|]. split; [reflexivity|]. discriminate.
Qed.

(** C1, amended: when the loop merges [next_activity] into [current],
    every key of the new accumulator other than source, title, start_time,
    end_time and the recomputed duration_minutes is as in the donor (same
    value, or absent as in the donor); the donor is [current] only if its
    raw duration is strictly greater than that of [next_activity], and is
    [next_activity] otherwise, equal durations included. *)
Theorem C1_donor_rule merged current next_activity k :
  mergeable current next_activity = true ->
  k <> "duration_minutes" ->
  let m := snd (merge_step (merged, current) next_activity) in
  let d_current := end_key current - start_key current in
  let d_next := end_key next_activity - start_key next_activity in
  (d_next < d_current -> extra m !! k = extra current !! k)
  /\ (d_current <= d_next -> extra m !! k = extra next_activity !! k).
Proof.
  intros Hm Hk. unfold merge_step. rewrite Hm. cbn [snd].
  unfold merge_pair. cbn [extra].
  rewrite lookup_insert_ne by done. rewrite donor_cases.
  split; intros Hd.
  - by destruct (Z.ltb_spec (end_key next_activity - start_key next_activity)
                   (end_key current - start_key current)); [|lia].
  - by destruct (Z.ltb_spec (end_key next_activity - start_key next_activity)
                   (end_key current - start_key current)); [lia|].
Qed.

Lemma C1_donor_rule_witness :
  extra (snd (merge_step ([], ex_meeting) ex_coding)) !! "task_type"
  = extra ex_coding !! "task_type".
Proof.
  apply (C1_donor_rule [] ex_meeting ex_coding "task_type");
    [reflexivity | discriminate | vm_compute; discriminate].
Defined.

(** The donor case of the spec: B is the longer one, so the merged
    activity has B's [task_type]; it runs from 09:00 to 09:30 and lasts 30
    minutes. *)
Example merge_donor_case :
  merge_overlapping_activities [ex_a; ex_b]
  = [ {| source := "A,B"; title := "a; b";
         start_time := utc 2024 1 1 9 0; end_time := utc 2024 1 1 9 30;
         extra := {[ "task_type" := VStr "Development";
                     "duration_minutes" := VNum (inject_Z 30) ]} |} ].
Proof. vm_compute. reflexivity. Qed.

(** *** C2 *)

(** C2, as stated, fails: an activity that is not merged is passed through
    with the [duration_minutes] it came with, here 1 for an interval of
    length zero. *)
Lemma C2_passed_through_stale :
  ex_chat ∈ merge_overlapping_activities [ex_chat]
  /\ extra ex_chat !! "duration_minutes" = Some (VNum (inject_Z 1))
  /\ Datetime.total_minutes (Datetime.sub (end_time ex_chat) (start_time ex_chat))
     = inject_Z 0
  /\ ~ duration_recomputed ex_chat.
Proof.
  split; [apply list_elem_of_singleton; reflexivity|].
  split; [reflexivity|]. split; [reflexivity|].
  unfold duration_recomputed. discriminate.
Qed.

(** C2, amended: every interval of the output is either an input interval
    passed through unchanged, or a merged interval whose
    [duration_minutes] is [(end_time - start_time)] in minutes. *)
Theorem C2_duration_recomputed_when_merged activities :
  Forall (fun a => a ∈ activities \/ duration_recomputed a)
    (merge_overlapping_activities activities).
Proof.
  rewrite merge_overlapping_activities_scan.
  pose proof (py_sorted_perm start_key activities) as Hp.
  destruct (py_sorted start_key activities) as [|first rest]; [constructor|].
  apply merge_scan_provenance.
  - intros c n. right. apply merge_pair_recomputed.
  - left. rewrite <- Hp. by left.
  - apply Forall_forall. intros x Hx. left. rewrite <- Hp. by right.
Qed.

(** *** C3 *)

(** C3: the output is ascending by [start_time], is no longer than the
    input, and each output interval ends no later than the start of its
    successor minus the merge threshold. *)
Theorem C3_merge_output_invariant activities :
  ascending start_key (merge_overlapping_activities activities)
  /\ (length (merge_overlapping_activities activities) <= length activities)%nat
  /\ Sorted (fun a b => end_key a <= start_key b - threshold_us)
       (merge_overlapping_activities activities).
Proof.
  rewrite merge_overlapping_activities_scan.
  pose proof (py_sorted_ascending start_key activities) as Hs.
  pose proof (py_sorted_length start_key activities) as Hl.
  destruct (py_sorted start_key activities) as [|first rest].
  - repeat split; [constructor | simpl; lia | constructor].
  - destruct (merge_scan_sorted first rest Hs) as (h & t & Heq & _ & Hasc & Hap).
    pose proof (merge_scan_length first rest) as Hlen.
    rewrite Heq in *. repeat split; [done | simpl in *; lia |].
    clear -Hap. induction Hap as [|a l _ IH Hd]; constructor; [done|].
    destruct Hd; constructor. unfold apart in *. lia.
Qed.

(** *** C4 *)

(** C4: merging is idempotent. *)
Theorem C4_merge_idempotent activities :
  merge_overlapping_activities (merge_overlapping_activities activities)
  = merge_overlapping_activities activities.
Proof.
  rewrite (merge_overlapping_activities_scan activities).
  pose proof (py_sorted_ascending start_key activities) as Hs.
  destruct (py_sorted start_key activities) as [|first rest]; [done|].
  destruct (merge_scan_sorted first rest Hs) as (h & t & -> & _ & Hasc & Hap).
  rewrite merge_overlapping_activities_scan, (py_sorted_id _ _ Hasc).
  by apply merge_scan_apart.
Qed.

(** *** C5 *)

(** C5: for a non-empty input the span from the earliest start to the
    latest end is the same before and after merging. *)
Theorem C5_span_conserved activities :
  activities <> [] ->
  exists lo hi,
    covered_span activities = Some (lo, hi)
    /\ covered_span (merge_overlapping_activities activities) = Some (lo, hi).
Proof.
  intros Hne. rewrite covered_span_merge.
  destruct activities as [|a l]; [done|].
  unfold covered_span; simpl. eauto.
Qed.

Lemma C5_span_conserved_witness :
  exists lo hi,
    covered_span [ex_coding; ex_meeting] = Some (lo, hi)
    /\ covered_span (merge_overlapping_activities [ex_coding; ex_meeting])
       = Some (lo, hi).
Proof. apply C5_span_conserved. discriminate. Defined.

(** ** The gap filler *)

Lemma fill_step_none sorted_activities m wh l :
  fold_left (fill_step sorted_activities m wh) l None = None.
Proof. induction l as [|i l IH]; simpl; [done|apply IH]. Qed.

(** The indexed loop of the source and the walk over pairs agree. *)
Lemma fill_fold_walk m wh rest pre prev acc :
  fold_left (fill_step (pre ++ prev :: rest) m wh)
    (seq (S (length pre)) (length rest)) (Some acc)
  = (tail ← fill_walk m wh prev rest; Some (acc ++ tail)).
Proof.
  revert pre prev acc.
  induction rest as [|curr rest IH]; intros pre prev acc; simpl.
  - by rewrite app_nil_r.
  - rewrite Nat.sub_0_r.
    rewrite (list_lookup_middle pre (curr :: rest) prev (length pre) eq_refl); simpl.
    replace (pre ++ prev :: curr :: rest) with ((pre ++ [prev]) ++ curr :: rest)
      by (by rewrite <- app_assoc).
    rewrite (list_lookup_middle (pre ++ [prev]) rest curr (S (length pre)))
      by (rewrite length_app; simpl; lia); simpl.
    destruct (gap_between (end_time prev) (start_time curr) m wh) as [gap|]; simpl.
    + replace (S (S (length pre))) with (S (length (pre ++ [prev])))
        by (rewrite length_app; simpl; lia).
      rewrite IH.
      destruct (fill_walk m wh curr rest) as [tail|]; simpl; [|done].
      f_equal. rewrite <- !app_assoc. done.
    + apply fill_step_none.
Qed.

Lemma fill_time_gaps_walk activities m wh :
  fill_time_gaps activities m wh =
    if (length activities <? 2)%nat then Some activities
    else match py_sorted start_key activities with
         | [] => None
         | first :: rest => tail ← fill_walk m wh first rest; Some (first :: tail)
         end.
Proof.
  unfold fill_time_gaps. destruct (length activities <? 2)%nat; [done|].
  destruct (py_sorted start_key activities) as [|first rest]; simpl.
  - done.
  - rewrite Nat.sub_0_r. apply (fill_fold_walk m wh rest [] first [first]).
Qed.

Lemma replace_hour_Some t h :
  valid_hour h -> exists t', Datetime.replace_hour t h = Some t'.
Proof.
  intros [H0 H24]. unfold Datetime.replace_hour.
  destruct (Z.leb_spec 0 h); [|lia]. destruct (Z.ltb_spec h 24); [|lia].
  simpl; eauto.
Qed.

Lemma min_instant a b :
  Datetime.instant (Datetime.min a b) = Z.min (Datetime.instant a) (Datetime.instant b).
Proof.
  unfold Datetime.min, Datetime.lt.
  destruct (Z.ltb_spec (Datetime.instant b) (Datetime.instant a)); lia.
Qed.

Lemma max_instant a b :
  Datetime.instant (Datetime.max a b) = Z.max (Datetime.instant a) (Datetime.instant b).
Proof.
  unfold Datetime.max, Datetime.gt, Datetime.lt.
  destruct (Z.ltb_spec (Datetime.instant a) (Datetime.instant b)); lia.
Qed.

Lemma gap_between_total prev_end curr_start m ws we :
  valid_hour ws -> valid_hour we ->
  exists gap, gap_between prev_end curr_start m (ws, we) = Some gap.
Proof.
  intros Hs He. unfold gap_between.
  destruct (Qle_bool _ _); [|eauto].
  destruct (replace_hour_Some prev_end ws Hs) as [ds ->].
  destruct (replace_hour_Some prev_end we He) as [de ->]; simpl.
  destruct (Qle_bool _ _); eauto.
Qed.

(** What [gap_between] can return: nothing, or one gap that lies inside
    the working window of [prev_end]'s day and is at least [m] minutes
    long. *)
Lemma gap_between_inv prev_end curr_start m ws we gap :
  gap_between prev_end curr_start m (ws, we) = Some gap ->
  gap = []
  \/ exists day_start day_end,
       Datetime.replace_hour prev_end ws = Some day_start
       /\ Datetime.replace_hour prev_end we = Some day_end
       /\ gap = [gap_activity (Datetime.max prev_end day_start)
                   (Datetime.min curr_start day_end)
                   (Datetime.total_minutes
                      (Datetime.sub (Datetime.min curr_start day_end)
                         (Datetime.max prev_end day_start)))]
       /\ m * 60000000 <= Datetime.instant curr_start - Datetime.instant prev_end
       /\ m * 60000000
          <= Datetime.instant (Datetime.min curr_start day_end)
             - Datetime.instant (Datetime.max prev_end day_start).
Proof.
  unfold gap_between. rewrite Qle_bool_total_minutes_r.
  destruct (Z.leb_spec (m * 60000000) (Datetime.sub curr_start prev_end));
    [|intros [= <-]; by left].
  destruct (Datetime.replace_hour prev_end ws) as [ds|]; [|done].
  destruct (Datetime.replace_hour prev_end we) as [de|]; [|done]; simpl.
  rewrite Qle_bool_total_minutes_r.
  destruct (Z.leb_spec (m * 60000000)
              (Datetime.sub (Datetime.min curr_start de) (Datetime.max prev_end ds)));
    intros [= <-]; [|by left].
  right. exists ds, de. unfold Datetime.sub in *. repeat split; lia.
Qed.

Lemma gap_between_is_gap prev_end curr_start m wh gap :
  gap_between prev_end curr_start m wh = Some gap -> Forall (is_gap m) gap.
Proof.
  destruct wh as [ws we]. intros H.
  apply gap_between_inv in H as [->|(ds & de & _ & _ & -> & _ & Hlen)].
  - constructor.
  - constructor; [|constructor].
    split; [reflexivity|]. split; [apply lookup_insert_eq | exact Hlen].
Qed.

Lemma interleaved_gaps m gap xs ys :
  Forall (is_gap m) gap -> interleaved m xs ys -> interleaved m xs (gap ++ ys).
Proof.
  induction 1; simpl; intros; [done|]. apply interleaved_gap; auto.
Qed.

Lemma fill_walk_interleaved m wh prev rest out :
  fill_walk m wh prev rest = Some out -> interleaved m rest out.
Proof.
  revert prev out. induction rest as [|curr rest IH]; intros prev out; simpl.
  - intros [= <-]. constructor.
  - destruct (gap_between _ _ m wh) as [gap|] eqn:Hg; [|done]; simpl.
    destruct (fill_walk m wh curr rest) as [tail|] eqn:Hw; [|done]; simpl.
    intros [= <-]. apply interleaved_gaps.
    + by eapply gap_between_is_gap.
    + apply interleaved_keep. by eapply IH.
Qed.

Lemma fill_walk_total m ws we prev rest :
  valid_hour ws -> valid_hour we ->
  exists out, fill_walk m (ws, we) prev rest = Some out.
Proof.
  intros Hs He. revert prev.
  induction rest as [|curr rest IH]; intros prev; simpl; [eauto|].
  destruct (gap_between_total (end_time prev) (start_time curr) m ws we Hs He)
    as [gap ->].
  destruct (IH curr) as [tail ->]. simpl; eauto.
Qed.

Lemma interleaved_id m xs : interleaved m xs xs.
Proof. induction xs; constructor; done. Qed.

Lemma interleaved_sublist m xs ys : interleaved m xs ys -> xs `sublist_of` ys.
Proof. induction 1; by constructor. Qed.

Lemma interleaved_length m xs ys :
  interleaved m xs ys -> (length xs <= length ys)%nat.
Proof. induction 1; simpl; lia. Qed.

Lemma replace_hour_inv t h t' :
  Datetime.replace_hour t h = Some t' ->
  t' = mk_datetime (year t) (month t) (day t) h 0 0 0 (utcoffset t).
Proof.
  unfold Datetime.replace_hour.
  destruct ((0 <=? h) && (h <? 24)); [|done]. by intros [= <-].
Qed.

(** A raw gap below the minimum yields nothing. *)
Lemma gap_between_small prev_end curr_start m wh :
  Datetime.instant curr_start - Datetime.instant prev_end < m * 60000000 ->
  gap_between prev_end curr_start m wh = Some [].
Proof.
  intros Hlt. destruct wh as [ws we]. unfold gap_between.
  rewrite Qle_bool_total_minutes_r.
  destruct (Z.leb_spec (m * 60000000) (Datetime.sub curr_start prev_end)) as [H|H];
    [|done].
  unfold Datetime.sub in H. lia.
Qed.

(** A clipped gap below the minimum yields nothing. *)
Lemma gap_between_clipped prev_end curr_start m ws we ds de :
  Datetime.replace_hour prev_end ws = Some ds ->
  Datetime.replace_hour prev_end we = Some de ->
  Datetime.instant (Datetime.min curr_start de)
  - Datetime.instant (Datetime.max prev_end ds) < m * 60000000 ->
  gap_between prev_end curr_start m (ws, we) = Some [].
Proof.
  intros Hds Hde Hlt. unfold gap_between.
  destruct (Qle_bool _ _); [|done].
  rewrite Hds, Hde. cbn [mbind option_bind].
  rewrite Qle_bool_total_minutes_r.
  destruct (Z.leb_spec (m * 60000000)
              (Datetime.sub (Datetime.min curr_start de) (Datetime.max prev_end ds)))
    as [H|H]; [|done].
  unfold Datetime.sub in H. lia.
Qed.

(** What [gap_between] returns, and why: nothing when no gap is due, or
    the one gap that fills the clipped window. *)
Lemma gap_between_cases prev curr m ws we gap :
  gap_between (end_time prev) (start_time curr) m (ws, we) = Some gap ->
  (gap = [] /\ no_gap_due m ws we prev curr)
  \/ (exists g, gap = [g] /\ clipped_gap m ws we prev curr g).
Proof.
  unfold gap_between. rewrite Qle_bool_total_minutes_r.
  destruct (Z.leb_spec (m * 60000000)
              (Datetime.sub (start_time curr) (end_time prev))) as [Hraw|Hraw].
  2:{ intros [= <-]. left. split; [done|]. left.
      unfold start_key, end_key, Datetime.sub in *. lia. }
  destruct (Datetime.replace_hour (end_time prev) ws) as [ds|] eqn:Hds; [|done].
  destruct (Datetime.replace_hour (end_time prev) we) as [de|] eqn:Hde; [|done].
  cbn [mbind option_bind].
  apply replace_hour_inv in Hds. apply replace_hour_inv in Hde.
  fold (on_day_of (end_time prev) ws) in Hds.
  fold (on_day_of (end_time prev) we) in Hde. subst ds de.
  fold (clip_start ws prev). fold (clip_end we prev curr).
  rewrite Qle_bool_total_minutes_r.
  destruct (Z.leb_spec (m * 60000000)
              (Datetime.sub (clip_end we prev curr) (clip_start ws prev)))
    as [Hclip|Hclip]; intros [= <-].
  - right. eexists. split; [reflexivity|].
    split; [reflexivity|]. split; [reflexivity|]. split; [reflexivity|].
    split; [apply lookup_insert_eq|].
    unfold end_key, start_key, gap_activity, Datetime.sub in *.
    cbn [end_time start_time]. lia.
  - left. split; [done|]. right. unfold Datetime.sub in Hclip. lia.
Qed.

Lemma fill_walk_window m ws we prev rest tail :
  fill_walk m (ws, we) prev rest = Some tail ->
  window_filled m ws we (prev :: rest) (prev :: tail).
Proof.
  revert prev tail. induction rest as [|curr rest IH]; intros prev tail; simpl.
  - intros [= <-]. constructor.
  - destruct (gap_between _ _ m (ws, we)) as [gap|] eqn:Hg; [|done]; simpl.
    destruct (fill_walk m (ws, we) curr rest) as [tail'|] eqn:Hw; [|done]; simpl.
    intros [= <-].
    apply gap_between_cases in Hg as [[-> Hno]|(g & -> & Hg)]; cbn [app].
    + apply window_filled_keep; [done|]. by apply IH.
    + apply window_filled_gap; [done|]. by apply IH.
Qed.

(** After 23:50 the working window of the day is over, whatever hour it
    ends at. *)
Lemma on_day_of_before_2350 t h :
  hour t = 23 -> minute t = 50 -> 0 <= second t -> 0 <= microsecond t ->
  valid_hour h ->
  Datetime.instant (on_day_of t h) < Datetime.instant t.
Proof.
  intros Hh Hmin Hs Hus [_ H24]. destruct t as [y mo d hh mi sec us off].
  cbn [year month day hour minute second microsecond utcoffset] in *.
  subst hh mi. unfold on_day_of, Datetime.instant.
  cbn [year month day hour minute second microsecond utcoffset]. lia.
Qed.

(** *** C6 *)

(** C6: the gap filler clips every candidate gap against the working
    window of the calendar day on which the previous interval ends, and
    against no other day.  Whenever [fill_time_gaps] returns, its output
    is the sorted input with, between two neighbours [prev] and [curr],
    either nothing (the silence, or what the window leaves of it, is
    shorter than the minimum) or the one gap running from
    [max(prev.end_time, day_start)] to [min(curr.start_time, day_end)],
    both hours taken on the date and in the zone of [prev.end_time].  So
    for an interval ending at 23:50 followed by a later one, say at 08:00
    the next day, the output is the two intervals alone: with the working
    day ending at 17 (or at any hour) no gap is produced, and none
    extends past that hour of the first day. *)
Theorem C6_gap_clipped_to_first_day :
  (forall activities m ws we out,
     fill_time_gaps activities m (ws, we) = Some out ->
     window_filled m ws we (py_sorted start_key activities) out)
  /\ (forall prev curr m ws we,
        start_key prev <= start_key curr ->
        hour (end_time prev) = 23 -> minute (end_time prev) = 50 ->
        0 <= second (end_time prev) -> 0 <= microsecond (end_time prev) ->
        valid_hour ws -> valid_hour we -> 0 <= m ->
        fill_time_gaps [prev; curr] m (ws, we) = Some [prev; curr]).
Proof.
  split.
  - intros activities m ws we out. rewrite fill_time_gaps_walk.
    destruct activities as [|a [|b activities]].
    + intros [= <-]. constructor.
    + intros [= <-]. constructor.
    + change (length (a :: b :: activities) <? 2)%nat with false. cbv iota.
      destruct (py_sorted start_key (a :: b :: activities)) as [|first rest];
        [done|].
      destruct (fill_walk m (ws, we) first rest) as [tail|] eqn:Hw; [|done].
      intros [= <-]. by apply fill_walk_window.
  - intros prev curr m ws we Hord Hh Hmin Hs Hus Hws Hwe Hm.
    rewrite fill_time_gaps_walk.
    change (length [prev; curr] <? 2)%nat with false. cbv iota.
    rewrite py_sorted_id.
    2:{ apply Sorted_cons; [apply Sorted_cons; constructor|].
        constructor. exact Hord. }
    cbn [fill_walk].
    destruct (replace_hour_Some (end_time prev) ws Hws) as [ds Hds].
    destruct (replace_hour_Some (end_time prev) we Hwe) as [de Hde].
    rewrite (gap_between_clipped _ _ m ws we ds de Hds Hde); [reflexivity|].
    apply replace_hour_inv in Hde. fold (on_day_of (end_time prev) we) in Hde.
    pose proof (on_day_of_before_2350 (end_time prev) we Hh Hmin Hs Hus Hwe).
    subst de. rewrite min_instant, max_instant. lia.
Qed.

Lemma C6_gap_clipped_to_first_day_witness :
  fill_time_gaps [ex_night; ex_next_morning] 30 (9, 17)
  = Some [ex_night; ex_next_morning]
  /\ window_filled 30 9 17 (py_sorted start_key [ex_dawn; ex_next_morning])
       [ex_dawn;
        gap_activity (utc 2024 1 1 9 0) (utc 2024 1 1 17 0) (inject_Z 480);
        ex_next_morning].
Proof.
  destruct C6_gap_clipped_to_first_day as [Hclip Hnight]. split.
  - apply Hnight.
    + vm_compute. discriminate.
    + reflexivity.
    + reflexivity.
    + vm_compute. discriminate.
    + vm_compute. discriminate.
    + unfold valid_hour. lia.
    + unfold valid_hour. lia.
    + lia.
  - apply Hclip. vm_compute. reflexivity.
Defined.

(** The clip case of the spec, end to end: nothing is put between an
    activity ending at 23:50 and one starting at 08:00 the next day. *)
Example fill_time_gaps_overnight :
  fill_time_gaps [ex_night; ex_next_morning] 30 DEFAULT_WORKING_HOURS
  = Some [ex_night; ex_next_morning].
Proof. vm_compute. reflexivity. Qed.

(** *** C7 *)

(** C7: on an input sorted by [start_time] (and hours of the day as
    working hours) the gap filler returns the input intervals in their
    order with synthesized gaps between them, each gap at least
    [min_gap_minutes] long after clipping; so the output is no shorter
    than the input. *)
Theorem C7_gaps_interleaved activities m ws we :
  valid_hour ws -> valid_hour we ->
  ascending start_key activities ->
  exists out,
    fill_time_gaps activities m (ws, we) = Some out
    /\ interleaved m activities out
    /\ activities `sublist_of` out
    /\ (length activities <= length out)%nat.
Proof.
  intros Hs He Hasc. rewrite fill_time_gaps_walk.
  destruct (length activities <? 2)%nat eqn:Hlen.
  - exists activities. repeat split; [apply interleaved_id | done | done].
  - rewrite (py_sorted_id _ _ Hasc).
    destruct activities as [|first rest]; [done|].
    destruct (fill_walk_total m ws we first rest Hs He) as [tail Ht].
    rewrite Ht. exists (first :: tail).
    assert (interleaved m (first :: rest) (first :: tail)) as Hi.
    { apply interleaved_keep. by eapply fill_walk_interleaved. }
    repeat split; [done | by eapply interleaved_sublist
                  | by eapply interleaved_length].
Qed.

Lemma C7_gaps_interleaved_witness :
  exists out,
    fill_time_gaps [ex_morning; ex_noon] 30 (9, 17) = Some out
    /\ interleaved 30 [ex_morning; ex_noon] out
    /\ [ex_morning; ex_noon] `sublist_of` out
    /\ (length [ex_morning; ex_noon] <= length out)%nat.
Proof.
  apply (C7_gaps_interleaved [ex_morning; ex_noon] 30 9 17).
  - unfold valid_hour. lia.
  - unfold valid_hour. lia.
  - repeat constructor. vm_compute. discriminate.
Defined.

(** The boundary case of the spec: one gap from 09:00 to 12:00, of 180
    minutes, with source [time_gap]. *)
Example fill_time_gaps_boundary :
  fill_time_gaps [ex_morning; ex_noon] 30 DEFAULT_WORKING_HOURS
  = Some [ex_morning;
          gap_activity (utc 2024 1 1 9 0) (utc 2024 1 1 12 0) (inject_Z 180);
          ex_noon].
Proof. vm_compute. reflexivity. Qed.

(** ** The daily grouping *)

Lemma group_step_lookup days a d :
  group_step days a !! d =
    if decide (day_key a = d) then Some (default [] (days !! d) ++ [a])
    else days !! d.
Proof.
  unfold group_step. fold (day_key a).
  destruct (decide (day_key a = d)) as [<-|Hne].
  - rewrite lookup_alter_eq.
    destruct (days !! day_key a) as [l|] eqn:E.
    + by rewrite E.
    + by rewrite lookup_insert_eq.
  - rewrite lookup_alter_ne by done.
    destruct (days !! day_key a); [done|]. by rewrite lookup_insert_ne.
Qed.

Lemma group_fold_lookup activities days d :
  fold_left group_step activities days !! d =
    match days !! d, filter (fun a => day_key a = d) activities with
    | None, [] => None
    | o, l => Some (default [] o ++ l)
    end.
Proof.
  revert days. induction activities as [|a activities IH]; intros days.
  - simpl. destruct (days !! d); simpl; by rewrite ?app_nil_r.
  - cbn [fold_left]. rewrite IH, group_step_lookup, filter_cons.
    generalize (filter (fun a => day_key a = d) activities); intros l.
    destruct (decide (day_key a = d)); [|done].
    destruct (days !! d); simpl; [|done]. by rewrite <- app_assoc.
Qed.

(** *** C8 *)

(** C8, as stated, fails: the sample activity starts at 23:00 on
    2024-01-01 in a zone five hours behind UTC, which is 04:00 on
    2024-01-02 in the reporting zone; it is filed under 2024-01-01 and
    nothing is filed under 2024-01-02. *)
Lemma C8_not_reporting_zone :
  in_reporting_zone (start_time ex_east) (utc 2024 1 2 4 0)
  /\ Datetime.strftime_ymd (utc 2024 1 2 4 0) = "2024-01-02"
  /\ group_activities_by_day [ex_east] !! "2024-01-02" = None
  /\ group_activities_by_day [ex_east] !! "2024-01-01" = Some [ex_east].
Proof.
  split; [by vm_compute|].
  split; [reflexivity|]. split; vm_compute; reflexivity.
Qed.

(** C8, amended: the activities filed under a day key are exactly the
    activities whose [start_time], formatted as YYYY-MM-DD from its own
    wall-clock fields (the zone the datetime carries, with no conversion
    to the reporting zone), is that key, sorted by [start_time]; each
    activity is filed whole, whatever its [end_time]; the interval from
    2024-01-01T23:00Z to 2024-01-02T01:00Z is filed under 2024-01-01
    only. *)
Theorem C8_day_of_start :
  (forall activities d,
     group_activities_by_day activities !! d =
       match filter (fun a => day_key a = d) activities with
       | [] => None
       | l => Some (py_sorted start_key l)
       end)
  /\ group_activities_by_day [ex_late] = {[ "2024-01-01" := [ex_late] ]}.
Proof.
  split.
  - intros activities d. unfold group_activities_by_day.
    rewrite lookup_fmap, group_fold_lookup, lookup_empty.
    by destruct (filter _ activities).
  - vm_compute. reflexivity.
Qed.

(** ** The date filter *)

(** *** C10 *)

(** C10: the date filter returns, in their order and unchanged, exactly
    the activities that start at or after [start_date] and end at or
    before [end_date]; one that only partly overlaps the range is
    dropped. *)
Theorem C10_filter_contained activities start_date end_date :
  filter_activities_by_date activities start_date end_date `sublist_of` activities
  /\ (forall a,
        a ∈ filter_activities_by_date activities start_date end_date
        <-> a ∈ activities
            /\ Datetime.instant start_date <= start_key a
            /\ end_key a <= Datetime.instant end_date).
Proof.
  unfold filter_activities_by_date. split.
  - induction activities as [|a activities IH]; simpl; [done|].
    destruct (_ && _); by constructor.
  - intros a. rewrite !list_elem_of_In, filter_In, andb_true_iff.
    unfold Datetime.ge, Datetime.le, start_key, end_key.
    rewrite !Z.leb_le. tauto.
Qed.

(** ** The submission step *)

(** The integer part of [x] is at least 60 exactly when [x] is. *)
Lemma py_int_ge_60 (x : Q) : 60 <= py_int x <-> (inject_Z 60 <= x)%Q.
Proof.
  destruct x as [a b]. unfold py_int, Qle; simpl. rewrite Z.mul_1_r.
  destruct (Z.le_gt_cases 0 a) as [Ha|Ha].
  - rewrite Z.quot_div_nonneg by lia. split; intros H.
    + etrans; [apply Z.mul_le_mono_nonneg_r; [lia|exact H]|].
      rewrite Z.mul_comm. apply Z.mul_div_le. lia.
    + apply Z.div_le_lower_bound; lia.
  - split; intros H; [|lia].
    assert (Z.quot a (Z.pos b) <= 0); [|lia].
    replace a with (- (- a)) by lia.
    rewrite Z.quot_opp_l by lia.
    assert (0 <= Z.quot (- a) (Z.pos b)); [|lia].
    apply Z.quot_pos; lia.
Qed.

(** Without rounding, truncating [q * 60] gives at least 60 exactly when
    [q] is at least one minute. *)
Lemma whole_seconds_ge_60 (q : Q) :
  60 <= py_int (exact_times60 q) <-> (1 <= q)%Q.
Proof.
  rewrite py_int_ge_60. unfold exact_times60.
  destruct q as [a b]. unfold Qle; simpl. lia.
Qed.

Lemma is_unknown_false v : is_unknown v = false <-> v <> VStr "unknown".
Proof.
  destruct v; simpl; try (split; [discriminate|done]).
  rewrite String.eqb_neq. split; [congruence|].
  intros H Hs. apply H. by rewrite Hs.
Qed.

(** Which entries pass the two tests of the loop, in elementary terms. *)
Lemma is_submitted_spec times60 e :
  is_submitted times60 e = true
  <-> (exists v, jira_issue e = Some v /\ py_truthy v = true /\ v <> VStr "unknown")
      /\ (exists q, duration_minutes e = Some q /\ (inject_Z 60 <= times60 q)%Q).
Proof.
  unfold is_submitted, ticket_usable, whole_seconds.
  rewrite andb_true_iff, Z.leb_le. split.
  - intros [Ht Hq]. split.
    + destruct (jira_issue e) as [v|]; [|done].
      apply andb_true_iff in Ht as [Hv Hu]. apply negb_true_iff in Hu.
      exists v. by rewrite <- is_unknown_false.
    + destruct (duration_minutes e) as [q|]; [|lia].
      exists q. split; [done|]. by apply py_int_ge_60.
  - intros [(v & -> & Hv & Hu) (q & -> & Hq)]. split.
    + apply is_unknown_false in Hu. by rewrite Hv, Hu.
    + by apply py_int_ge_60.
Qed.

(** Where the product is exact, the second test asks for one minute. *)
Lemma is_submitted_exact e :
  is_submitted exact_times60 e = true
  <-> (exists v, jira_issue e = Some v /\ py_truthy v = true /\ v <> VStr "unknown")
      /\ (exists q, duration_minutes e = Some q /\ (1 <= q)%Q).
Proof.
  rewrite is_submitted_spec.
  split; intros [Ht (q & Hq & H)]; (split; [done|]); exists q; (split; [done|]).
  - by apply whole_seconds_ge_60, py_int_ge_60.
  - by apply py_int_ge_60, whole_seconds_ge_60.
Qed.

Lemma existsb_is_raised outs : existsb is_raised outs = true <-> Raised ∈ outs.
Proof.
  induction outs as [|o outs IH]; cbn [existsb].
  - split; [done|]. intros H. by apply elem_of_nil in H.
  - rewrite orb_true_iff, IH, elem_of_cons.
    destruct o; cbn [is_raised]; split; intros [H|H]; auto; discriminate.
Qed.

Lemma calls_until_raise_all outs :
  existsb is_raised outs = false -> calls_until_raise outs = length outs.
Proof.
  induction outs as [|o outs IH]; [done|].
  destruct o; cbn [existsb is_raised orb calls_until_raise length];
    intros H; [by rewrite IH | by rewrite IH | done].
Qed.

Lemma answered_outcomes outs :
  existsb is_raised outs = false ->
  (length (List.filter is_logged outs) + length (List.filter is_failed outs)
   = length outs)%nat.
Proof.
  induction outs as [|o outs IH]; [done|].
  destruct o; cbn [existsb is_raised orb List.filter is_logged is_failed length];
    intros H; [specialize (IH H); lia | specialize (IH H); lia | done].
Qed.

Lemma filter_zip_snd_length {A B} (f : B -> bool) (l : list A) (k : list B) :
  length k = length l ->
  length (List.filter (fun p => f (snd p)) (zip l k)) = length (List.filter f k).
Proof.
  revert l. induction k as [|b k IH]; intros [|a l] H; try done.
  cbn [zip zip_with List.filter snd].
  destruct (f b); cbn [length]; rewrite IH by (simpl in H; lia); done.
Qed.

Section SubmitFacts.
Variable log_work : nat -> worklog -> outcome.
Variable times60 : Q -> Q.

Lemma length_call_outcomes k subs :
  length (call_outcomes log_work times60 k subs) = length subs.
Proof.
  revert k. induction subs as [|e subs IH]; intros k; [done|].
  cbn [call_outcomes length]. by rewrite IH.
Qed.

Lemma submit_step_cases r e :
  submit_step log_work times60 (true, r) e =
    if is_submitted times60 e
    then match log_work (length (submitted r)) (worklog_of times60 e) with
         | Logged =>
             (true, mk_results (S (success r)) (error r) (skipped r) (errors r)
                      (submitted r ++ [worklog_of times60 e]))
         | Failed =>
             (true, mk_results (success r) (S (error r)) (skipped r)
                      (errors r ++ [e]) (submitted r ++ [worklog_of times60 e]))
         | Raised =>
             (false, mk_results (success r) (error r) (skipped r) (errors r)
                       (submitted r ++ [worklog_of times60 e]))
         end
    else (true, mk_results (success r) (error r) (S (skipped r)) (errors r)
                  (submitted r)).
Proof.
  unfold submit_step, is_submitted, ticket_usable, worklog_of. cbn [negb].
  destruct (jira_issue e) as [v|]; [|done].
  change (default VNone (Some v)) with v.
  destruct (py_truthy v); cbn [negb orb andb]; [|done].
  destruct (is_unknown v); cbn [negb orb andb]; [done|].
  rewrite Z.ltb_antisym.
  by destruct (60 <=? _).
Qed.

(** After the exception nothing happens any more. *)
Lemma submit_fold_stopped entries r :
  fold_left (submit_step log_work times60) entries (false, r) = (false, r).
Proof. induction entries as [|e entries IH]; [done|]. exact IH. Qed.

(** The loop, from any state in which it is still running. *)
Lemma submit_fold entries r :
  let subs := List.filter (is_submitted times60) entries in
  let outs := call_outcomes log_work times60 (length (submitted r)) subs in
  let st := fold_left (submit_step log_work times60) entries (true, r) in
  fst st = negb (existsb is_raised outs)
  /\ submitted (snd st)
     = submitted r
       ++ take (calls_until_raise outs) (map (worklog_of times60) subs)
  /\ (fst st = true ->
      skipped (snd st)
      = (skipped r
         + length (List.filter (fun e => negb (is_submitted times60 e)) entries))%nat
      /\ success (snd st) = (success r + length (List.filter is_logged outs))%nat
      /\ error (snd st) = (error r + length (List.filter is_failed outs))%nat
      /\ errors (snd st)
         = errors r
           ++ map fst (List.filter (fun p => is_failed (snd p)) (zip subs outs))).
Proof.
  revert r. induction entries as [|e entries IH]; intros r.
  - cbn. rewrite !app_nil_r, !Nat.add_0_r. done.
  - cbn [fold_left List.filter]. rewrite submit_step_cases.
    destruct (is_submitted times60 e) eqn:He; cbn [negb].
    + cbn [call_outcomes map existsb calls_until_raise].
      destruct (log_work (length (submitted r)) (worklog_of times60 e)) eqn:Ho.
      * specialize (IH (mk_results (S (success r)) (error r) (skipped r)
                          (errors r) (submitted r ++ [worklog_of times60 e]))).
        cbv zeta in IH. cbn [submitted skipped success error errors] in IH.
        rewrite length_app, Nat.add_1_r in IH.
        destruct IH as (IH1 & IH2 & IH3).
        cbn [is_raised orb]. split; [exact IH1|]. split.
        { rewrite IH2, <- app_assoc. done. }
        intros Hrun. destruct (IH3 Hrun) as (I1 & I2 & I3 & I4).
        cbn [zip zip_with List.filter is_logged is_failed snd length].
        rewrite I1, I2, I3, I4. repeat split; lia.
      * specialize (IH (mk_results (success r) (S (error r)) (skipped r)
                          (errors r ++ [e])
                          (submitted r ++ [worklog_of times60 e]))).
        cbv zeta in IH. cbn [submitted skipped success error errors] in IH.
        rewrite length_app, Nat.add_1_r in IH.
        destruct IH as (IH1 & IH2 & IH3).
        cbn [is_raised orb]. split; [exact IH1|]. split.
        { rewrite IH2, <- app_assoc. done. }
        intros Hrun. destruct (IH3 Hrun) as (I1 & I2 & I3 & I4).
        cbn [zip zip_with List.filter is_logged is_failed snd length map fst].
        rewrite I1, I2, I3, I4, <- app_assoc. repeat split; lia.
      * rewrite submit_fold_stopped. cbn [fst snd submitted is_raised orb negb take].
        split; [done|]. split; [done|]. discriminate.
    + specialize (IH (mk_results (success r) (error r) (S (skipped r))
                        (errors r) (submitted r))).
      cbv zeta in IH. cbn [submitted skipped success error errors] in IH.
      destruct IH as (IH1 & IH2 & IH3).
      split; [exact IH1|]. split; [exact IH2|].
      intros Hrun. destruct (IH3 Hrun) as (I1 & I2 & I3 & I4).
      cbn [length]. rewrite I1, I2, I3, I4. repeat split; lia.
Qed.

(** The whole run. *)
Lemma submit_loop_spec entries :
  let subs := List.filter (is_submitted times60) entries in
  let outs := call_outcomes log_work times60 0 subs in
  let st := submit_loop log_work times60 entries in
  fst st = negb (existsb is_raised outs)
  /\ submitted (snd st)
     = take (calls_until_raise outs) (map (worklog_of times60) subs)
  /\ (fst st = true ->
      skipped (snd st)
      = length (List.filter (fun e => negb (is_submitted times60 e)) entries)
      /\ success (snd st) = length (List.filter is_logged outs)
      /\ error (snd st) = length (List.filter is_failed outs)
      /\ errors (snd st)
         = map fst (List.filter (fun p => is_failed (snd p)) (zip subs outs))).
Proof.
  exact (submit_fold entries (mk_results 0 0 0 [] [])).
Qed.

(** The run returns its counters exactly when no call raises. *)
Lemma submit_time_entries_Some entries r :
  submit_time_entries log_work times60 entries = Some r
  <-> submit_loop log_work times60 entries = (true, r).
Proof.
  unfold submit_time_entries.
  destruct (submit_loop log_work times60 entries) as [[|] r'];
    split; intros H; by simplify_eq.
Qed.

Lemma submit_time_entries_None entries :
  submit_time_entries log_work times60 entries = None
  <-> fst (submit_loop log_work times60 entries) = false.
Proof.
  unfold submit_time_entries.
  destruct (submit_loop log_work times60 entries) as [[|] r']; cbn [fst];
    split; intros H; by simplify_eq.
Qed.
End SubmitFacts.

Lemma filter_split_length {A} (f : A -> bool) (l : list A) :
  (length (List.filter f l) + length (List.filter (fun x => negb (f x)) l)
   = length l)%nat.
Proof.
  induction l as [|x l IH]; simpl; [done|].
  destruct (f x); simpl; lia.
Qed.

(** *** C9 *)

(** C9, as stated, fails on both counts: 59.7 seconds of work on a real
    ticket round to 60 seconds but are skipped, and an entry whose ticket
    is present but empty is skipped although the ticket is neither absent
    nor the sentinel.  (The product 0.995 * 60 has the integer part 59
    with and without rounding to a float.) *)
Lemma C9_truncates_and_skips_blank :
  ~ spec_excluded ex_short
  /\ py_round ((199 # 200) * inject_Z 60)%Q = 60
  /\ submit_time_entries (fun _ _ => Logged) exact_times60 [ex_short]
     = Some (mk_results 0 0 1 [] [])
  /\ calls_made (fun _ _ => Logged) exact_times60 [ex_short] = []
  /\ ~ spec_excluded ex_blank
  /\ submit_time_entries (fun _ _ => Logged) exact_times60 [ex_blank]
     = Some (mk_results 0 0 1 [] [])
  /\ calls_made (fun _ _ => Logged) exact_times60 [ex_blank] = [].
Proof.
  repeat split; try reflexivity.
  - intros [H|[H|H]]; [discriminate H | discriminate H | vm_compute in H; done].
  - intros [H|[H|H]]; [discriminate H | discriminate H | vm_compute in H; done].
Qed.

(** C9, amended.  An entry is a candidate when its ticket is present,
    truthy (not None, not empty) and not the sentinel, and its duration
    is present with [duration_minutes * 60], as Python computes it, at
    least 60, so at least 60 whole seconds after truncation.  The calls
    made to [log_work] are, in order, those for the candidates, up to and
    including the first call that raises, if one does.  If no call
    raises, the step returns: every candidate was passed to [log_work]
    and counts as one success or one error, and every other entry counts
    as skipped and was not submitted.  If a call raises, the step ends
    with that exception and returns no counts. *)
Theorem C9_submission_filter log_work times60 entries :
  let subs := List.filter (is_submitted times60) entries in
  let outs := call_outcomes log_work times60 0 subs in
  (forall e,
     is_submitted times60 e = true
     <-> (exists v, jira_issue e = Some v /\ py_truthy v = true
                    /\ v <> VStr "unknown")
         /\ (exists q, duration_minutes e = Some q
                       /\ (inject_Z 60 <= times60 q)%Q))
  /\ calls_made log_work times60 entries
     = take (calls_until_raise outs) (map (worklog_of times60) subs)
  /\ (Raised ∉ outs ->
      exists r,
        submit_time_entries log_work times60 entries = Some r
        /\ submitted r = map (worklog_of times60) subs
        /\ skipped r
           = length (List.filter (fun e => negb (is_submitted times60 e)) entries)
        /\ (success r + error r = length subs)%nat
        /\ error r = length (errors r))
  /\ (Raised ∈ outs -> submit_time_entries log_work times60 entries = None).
Proof.
  intros subs outs.
  destruct (submit_loop_spec log_work times60 entries) as (Hrun & Hcalls & Hcount).
  fold subs in Hrun, Hcalls, Hcount. fold outs in Hrun, Hcalls, Hcount.
  split; [apply is_submitted_spec|].
  split; [exact Hcalls|]. split.
  - intros Hno.
    assert (existsb is_raised outs = false) as Hex.
    { apply not_true_is_false. by rewrite existsb_is_raised. }
    rewrite Hex in Hrun. cbn [negb] in Hrun.
    destruct (Hcount Hrun) as (H1 & H2 & H3 & H4).
    exists (snd (submit_loop log_work times60 entries)).
    split.
    { apply submit_time_entries_Some.
      destruct (submit_loop log_work times60 entries) as [b r].
      cbn [fst snd] in *. by subst b. }
    pose proof (answered_outcomes outs Hex) as Hans.
    pose proof (length_call_outcomes log_work times60 0 subs) as Hlen.
    fold outs in Hlen.
    split.
    { rewrite Hcalls, (calls_until_raise_all outs Hex), Hlen.
      apply firstn_all2. by rewrite length_map. }
    split; [exact H1|]. split; [lia|].
    rewrite H3, H4, length_map. symmetry. by apply filter_zip_snd_length.
  - intros Hin. apply submit_time_entries_None.
    apply existsb_is_raised in Hin. by rewrite Hrun, Hin.
Qed.

Lemma C9_submission_filter_witness :
  (exists r,
     submit_time_entries ex_second_refused exact_times60 ex_entries = Some r
     /\ submitted r = [worklog_of exact_times60 ex_logged;
                       worklog_of exact_times60 ex_logged;
                       worklog_of exact_times60 ex_logged]
     /\ skipped r = 2%nat
     /\ (success r + error r = 3)%nat
     /\ error r = length (errors r))
  /\ submit_time_entries ex_no_client exact_times60 ex_entries = None.
Proof.
  split.
  - apply (C9_submission_filter ex_second_refused exact_times60 ex_entries).
    vm_compute. intros H.
    apply elem_of_cons in H as [H|H]; [discriminate|].
    apply elem_of_cons in H as [H|H]; [discriminate|].
    apply elem_of_cons in H as [H|H]; [discriminate|].
    by apply elem_of_nil in H.
  - apply (C9_submission_filter ex_no_client exact_times60 ex_entries).
    vm_compute. apply elem_of_cons. by left.
Defined.

(** * Further properties *)

(** ** The merge engine: coverage, validity, fixed points, input order *)

Lemma merge_pair_covers_left c n a : covers c a -> covers (merge_pair c n) a.
Proof.
  unfold covers. rewrite merge_pair_start_key, merge_pair_end_key. lia.
Qed.

Lemma merge_pair_covers_right c n : covers (merge_pair c n) n.
Proof.
  unfold covers. rewrite merge_pair_start_key, merge_pair_end_key. lia.
Qed.

Lemma merge_scan_covers current rest a :
  covers current a \/ a ∈ rest ->
  Exists (fun b => covers b a) (merge_scan current rest).
Proof.
  revert current. induction rest as [|n rest IH]; intros current [Hc|Hin]; simpl.
  - by constructor.
  - by apply elem_of_nil in Hin.
  - destruct (mergeable current n).
    + apply IH. left. by apply merge_pair_covers_left.
    + by constructor.
  - destruct (mergeable current n).
    + apply IH. apply elem_of_cons in Hin as [->|Hin]; [left|by right].
      apply merge_pair_covers_right.
    + apply Exists_cons_tl. apply IH.
      apply elem_of_cons in Hin as [->|Hin]; [left|by right].
      unfold covers. lia.
Qed.

(** X1: no tracked time is lost by merging: every input interval lies
    within some interval of the output. *)
Theorem merge_covers_every_input activities :
  Forall (fun a => Exists (fun b => covers b a)
                     (merge_overlapping_activities activities))
    activities.
Proof.
  apply Forall_forall. intros a Ha.
  rewrite merge_overlapping_activities_scan.
  pose proof (py_sorted_perm start_key activities) as Hp.
  rewrite <- Hp in Ha.
  destruct (py_sorted start_key activities) as [|first rest].
  - by apply elem_of_nil in Ha.
  - apply merge_scan_covers.
    apply elem_of_cons in Ha as [->|Ha]; [left|by right].
    unfold covers. lia.
Qed.

Lemma merge_scan_preserves (P : activity -> Prop) current rest :
  (forall c n, P c -> P n -> P (merge_pair c n)) ->
  P current -> Forall P rest -> Forall P (merge_scan current rest).
Proof.
  intros Hmerge. revert current.
  induction rest as [|n rest IH]; intros current Hc Hrest; simpl.
  - by constructor.
  - apply Forall_cons in Hrest as [Hn Hrest].
    destruct (mergeable current n).
    + apply IH; [by apply Hmerge|done].
    + constructor; [done|]. by apply IH.
Qed.

(** X2: if no input interval ends before it starts, no output interval
    does. *)
Theorem merge_keeps_intervals_valid activities :
  Forall valid_interval activities ->
  Forall valid_interval (merge_overlapping_activities activities).
Proof.
  intros Hv. rewrite merge_overlapping_activities_scan.
  rewrite <- (py_sorted_perm start_key activities) in Hv.
  destruct (py_sorted start_key activities) as [|first rest]; [constructor|].
  apply Forall_cons in Hv as [Hf Hrest].
  apply merge_scan_preserves; [|done..].
  intros c n Hc Hn. unfold valid_interval in *.
  rewrite merge_pair_start_key, merge_pair_end_key. lia.
Qed.

Lemma merge_keeps_intervals_valid_witness :
  Forall valid_interval (merge_overlapping_activities [ex_coding; ex_meeting]).
Proof.
  apply merge_keeps_intervals_valid.
  repeat constructor; vm_compute; discriminate.
Defined.

(** X3: the sequences that merging leaves as they are are exactly those
    that are ascending by start and whose neighbours are more than the
    threshold apart. *)
Theorem merge_fixed_points activities :
  merge_overlapping_activities activities = activities
  <-> ascending start_key activities /\ Sorted apart activities.
Proof.
  split.
  - intros Heq. rewrite <- Heq. rewrite merge_overlapping_activities_scan.
    pose proof (py_sorted_ascending start_key activities) as Hs.
    destruct (py_sorted start_key activities) as [|first rest].
    + split; constructor.
    + destruct (merge_scan_sorted first rest Hs) as (h & t & -> & _ & ? & ?).
      done.
  - intros [Hasc Hap]. rewrite merge_overlapping_activities_scan.
    rewrite (py_sorted_id _ _ Hasc).
    destruct activities as [|first rest]; [done|].
    by apply merge_scan_apart.
Qed.

Section SortedUnique.
Context {A : Type} (key : A -> Z).

Lemma ascending_strongly l :
  ascending key l -> StronglySorted (fun x y => key x <= key y) l.
Proof.
  apply Sorted_StronglySorted. intros x y z Hxy Hyz. lia.
Qed.

Lemma ascending_strict l :
  ascending key l -> NoDup (key <$> l) ->
  StronglySorted (fun x y => key x < key y) l.
Proof.
  intros Hasc. apply ascending_strongly in Hasc.
  induction Hasc as [|x l Hl IH Hx]; intros Hnd; [constructor|].
  rewrite fmap_cons in Hnd. apply NoDup_cons in Hnd as [Hnotin Hnd].
  constructor; [by apply IH|].
  apply Forall_forall. intros y Hy.
  rewrite Forall_forall in Hx. specialize (Hx y Hy).
  assert (key x <> key y); [|lia].
  intros Heq. apply Hnotin. rewrite Heq. by apply list_elem_of_fmap_2.
Qed.

(** With pairwise distinct keys the sorted sequence depends on the
    elements only, not on their order in the input. *)
Lemma py_sorted_perm_eq l1 l2 :
  l1 ≡ₚ l2 -> NoDup (key <$> l1) -> py_sorted key l1 = py_sorted key l2.
Proof.
  intros Hp Hnd.
  apply (StronglySorted_unique_strong (fun x y => key x < key y)).
  - intros x1 x2 _ _ H1 H2. lia.
  - apply ascending_strict; [apply py_sorted_ascending|].
    by rewrite py_sorted_perm.
  - apply ascending_strict; [apply py_sorted_ascending|].
    by rewrite py_sorted_perm, <- Hp.
  - by rewrite !py_sorted_perm.
Qed.
End SortedUnique.

(** X4: when no two activities start at the same instant, the result of
    merging does not depend on the order in which they were collected. *)
Theorem merge_input_order_irrelevant activities activities' :
  activities ≡ₚ activities' ->
  NoDup (start_key <$> activities) ->
  merge_overlapping_activities activities
  = merge_overlapping_activities activities'.
Proof.
  intros Hp Hnd. rewrite !merge_overlapping_activities_scan.
  by rewrite (py_sorted_perm_eq start_key _ _ Hp Hnd).
Qed.

Lemma merge_input_order_irrelevant_witness :
  merge_overlapping_activities [ex_coding; ex_meeting]
  = merge_overlapping_activities [ex_meeting; ex_coding].
Proof.
  apply merge_input_order_irrelevant.
  - apply Permutation_swap.
  - vm_compute. repeat constructor; rewrite ?list_elem_of_In; simpl; intuition discriminate.
Defined.

(** ** The gap filler: where gaps lie, the resulting timeline, idempotence,
    failure *)

Lemma gap_activity_start_key a b q :
  start_key (gap_activity a b q) = Datetime.instant a.
Proof. reflexivity. Qed.

Lemma gap_activity_end_key a b q :
  end_key (gap_activity a b q) = Datetime.instant b.
Proof. reflexivity. Qed.

(** A synthesized gap starts no earlier than the previous interval ends,
    ends no later than the current one starts, and spans at least the
    minimum. *)
Lemma gap_between_bounds prev_end curr_start m wh gap :
  gap_between prev_end curr_start m wh = Some gap ->
  Forall (fun g =>
            Datetime.instant prev_end <= start_key g
            /\ end_key g <= Datetime.instant curr_start
            /\ m * 60000000 <= end_key g - start_key g) gap.
Proof.
  destruct wh as [ws we]. intros H.
  apply gap_between_inv in H as [->|(ds & de & _ & _ & -> & _ & Hlen)].
  - constructor.
  - constructor; [|constructor].
    rewrite gap_activity_start_key, gap_activity_end_key.
    rewrite min_instant, max_instant in *. lia.
Qed.

Lemma gap_between_inv' prev_end curr_start m wh gap :
  gap_between prev_end curr_start m wh = Some gap ->
  gap = [] \/ exists g, gap = [g].
Proof.
  destruct wh as [ws we]. intros H.
  apply gap_between_inv in H as [->|(ds & de & _ & _ & -> & _)]; eauto.
Qed.

Lemma no_overlap_ascending l :
  Forall valid_interval l -> Sorted no_overlap l -> ascending start_key l.
Proof.
  intros Hv Hs. unfold ascending.
  induction Hs as [|a l Hs IH Hd]; [constructor|].
  apply Forall_cons in Hv as [Ha Hv].
  constructor; [by apply IH|].
  destruct Hd as [|b l Hab]; constructor.
  unfold no_overlap, valid_interval in *. lia.
Qed.

Lemma fill_walk_timeline m wh prev rest tail :
  0 <= m ->
  Forall valid_interval rest ->
  Sorted no_overlap (prev :: rest) ->
  fill_walk m wh prev rest = Some tail ->
  Sorted no_overlap (prev :: tail) /\ Forall valid_interval tail.
Proof.
  intros Hm. revert prev tail.
  induction rest as [|curr rest IH]; intros prev tail Hv Hs; simpl.
  - intros [= <-]. split; repeat constructor.
  - destruct (gap_between _ _ m wh) as [gap|] eqn:Hg; [|done]; simpl.
    destruct (fill_walk m wh curr rest) as [tl|] eqn:Hw; [|done]; simpl.
    intros [= <-].
    apply Forall_cons in Hv as [Hc Hv].
    apply Sorted_inv in Hs as [Hs Hd]. apply HdRel_inv in Hd.
    destruct (IH curr tl Hv Hs Hw) as [Hs' Hv'].
    pose proof (gap_between_bounds _ _ _ _ _ Hg) as Hb.
    apply gap_between_inv' in Hg.
    destruct Hg as [->|[g ->]]; simpl.
    + split; [|by constructor].
      constructor; [done|]. by constructor.
    + apply Forall_cons in Hb as [(Hb1 & Hb2 & Hb3) _].
      split.
      * constructor; [|constructor; exact Hb1].
        constructor; [done|]. constructor. exact Hb2.
      * constructor; [unfold valid_interval; lia|]. by constructor.
Qed.

Lemma fill_time_gaps_keeps_timeline_aux activities m wh out :
  0 <= m ->
  Forall valid_interval activities ->
  Sorted no_overlap activities ->
  fill_time_gaps activities m wh = Some out ->
  Sorted no_overlap out /\ Forall valid_interval out.
Proof.
  intros Hm Hv Hs. rewrite fill_time_gaps_walk.
  destruct (length activities <? 2)%nat; [by intros [= <-]|].
  rewrite (py_sorted_id _ _ (no_overlap_ascending _ Hv Hs)).
  destruct activities as [|first rest]; [done|].
  destruct (fill_walk m wh first rest) as [tail|] eqn:Hw; [|done]; simpl.
  intros [= <-]. apply Forall_cons in Hv as [Hf Hv].
  destruct (fill_walk_timeline m wh first rest tail Hm Hv Hs Hw) as [Hs' Hv'].
  split; [done|by constructor].
Qed.

(** X5: on a sequence of valid intervals in which each has ended when the
    next starts, and with a non-negative minimum gap, the gap filler
    returns such a sequence again: every synthesized gap lies between its
    two neighbours and does not end before it starts. *)
Theorem fill_time_gaps_keeps_timeline activities m wh out :
  0 <= m ->
  Forall valid_interval activities ->
  Sorted no_overlap activities ->
  fill_time_gaps activities m wh = Some out ->
  Sorted no_overlap out /\ Forall valid_interval out.
Proof. apply fill_time_gaps_keeps_timeline_aux. Qed.

Lemma fill_time_gaps_keeps_timeline_witness :
  Sorted no_overlap
    [ex_morning;
     gap_activity (utc 2024 1 1 9 0) (utc 2024 1 1 12 0) (inject_Z 180);
     ex_noon]
  /\ Forall valid_interval
       [ex_morning;
        gap_activity (utc 2024 1 1 9 0) (utc 2024 1 1 12 0) (inject_Z 180);
        ex_noon].
Proof.
  apply (fill_time_gaps_keeps_timeline [ex_morning; ex_noon] 30 (9, 17)).
  - lia.
  - repeat constructor; vm_compute; discriminate.
  - repeat constructor; vm_compute; discriminate.
  - vm_compute. reflexivity.
Defined.

Lemma apart_no_overlap l : Sorted apart l -> Sorted no_overlap l.
Proof.
  induction 1 as [|a l _ IH Hd]; constructor; [done|].
  destruct Hd as [|b l Hab]; constructor.
  unfold apart, no_overlap, threshold_us, ACTIVITY_MERGE_THRESHOLD in *. lia.
Qed.

(** X6: the pipeline of the driver, merging and then filling gaps with the
    default settings, always returns; on valid input intervals its result
    contains the merged intervals in their order, and is a sequence of
    valid intervals in which each has ended when the next starts. *)
Theorem merge_then_fill_timeline activities :
  Forall valid_interval activities ->
  exists out,
    fill_time_gaps (merge_overlapping_activities activities) 30
      DEFAULT_WORKING_HOURS = Some out
    /\ merge_overlapping_activities activities `sublist_of` out
    /\ Sorted no_overlap out
    /\ Forall valid_interval out.
Proof.
  intros Hv.
  assert (Forall valid_interval (merge_overlapping_activities activities)
          /\ ascending start_key (merge_overlapping_activities activities)
          /\ Sorted apart (merge_overlapping_activities activities))
    as (Hmv & Hasc & Hap).
  { rewrite merge_overlapping_activities_scan.
    rewrite <- (py_sorted_perm start_key activities) in Hv.
    pose proof (py_sorted_ascending start_key activities) as Hs.
    destruct (py_sorted start_key activities) as [|first rest].
    { repeat split; constructor. }
    destruct (merge_scan_sorted first rest Hs) as (h & t & Heq & _ & ? & ?).
    split; [|by rewrite Heq].
    apply Forall_cons in Hv as [Hf Hrest].
    apply merge_scan_preserves; [|done..].
    intros c n Hc Hn. unfold valid_interval in *.
    rewrite merge_pair_start_key, merge_pair_end_key. lia. }
  generalize dependent (merge_overlapping_activities activities).
  intros merged Hmv Hasc Hap.
  assert (exists out, fill_time_gaps merged 30 DEFAULT_WORKING_HOURS = Some out
                      /\ merged `sublist_of` out) as (out & Hout & Hsub).
  { rewrite fill_time_gaps_walk.
    destruct (length merged <? 2)%nat eqn:Hlen; [by exists merged|].
    rewrite (py_sorted_id _ _ Hasc).
    destruct merged as [|first rest]; [done|].
    destruct (fill_walk_total 30 9 17 first rest) as [tail Ht];
      [unfold valid_hour; lia..|].
    unfold DEFAULT_WORKING_HOURS. rewrite Ht. exists (first :: tail).
    split; [done|]. apply sublist_skip.
    eapply interleaved_sublist. by eapply fill_walk_interleaved. }
  exists out. split; [done|]. split; [done|].
  eapply fill_time_gaps_keeps_timeline_aux; [|done| |done]; [lia|].
  by apply apart_no_overlap.
Qed.

Lemma merge_then_fill_timeline_witness :
  exists out,
    fill_time_gaps (merge_overlapping_activities [ex_noon; ex_morning]) 30
      DEFAULT_WORKING_HOURS = Some out
    /\ merge_overlapping_activities [ex_noon; ex_morning] `sublist_of` out
    /\ Sorted no_overlap out
    /\ Forall valid_interval out.
Proof.
  apply merge_then_fill_timeline.
  repeat constructor; vm_compute; discriminate.
Defined.

Lemma singleton_eq_inv {A} (x y : A) : [x] = [y] -> x = y.
Proof. by intros [= ->]. Qed.

Lemma replace_hour_again t h t' h' t'' :
  Datetime.replace_hour t h = Some t' ->
  Datetime.replace_hour t h' = Some t'' ->
  Datetime.replace_hour t' h' = Some t''.
Proof.
  unfold Datetime.replace_hour.
  destruct ((0 <=? h) && (h <? 24)); [|done].
  destruct ((0 <=? h') && (h' <? 24)); [|done].
  by intros [= <-] [= <-].
Qed.

(** Once a gap has been put between two intervals, nothing more fits
    before it or after it. *)
Lemma gap_between_filled prev_end curr_start m ws we g :
  0 < m ->
  gap_between prev_end curr_start m (ws, we) = Some [g] ->
  gap_between prev_end (start_time g) m (ws, we) = Some []
  /\ gap_between (end_time g) curr_start m (ws, we) = Some [].
Proof.
  intros Hm Hg.
  apply gap_between_inv in Hg as [Hg|(ds & de & Hds & Hde & Hg & _ & _)];
    [done|].
  apply singleton_eq_inv in Hg. subst g.
  unfold gap_activity. cbn [start_time end_time]. split.
  - apply (gap_between_clipped _ _ _ _ _ ds de Hds Hde).
    rewrite !min_instant, !max_instant. lia.
  - unfold Datetime.min at 1.
    destruct (Datetime.lt de curr_start).
    + apply (gap_between_clipped _ _ _ _ _ ds de).
      * exact (replace_hour_again _ _ _ _ _ Hde Hds).
      * exact (replace_hour_again _ _ _ _ _ Hde Hde).
      * rewrite !min_instant, !max_instant. lia.
    + apply gap_between_small. lia.
Qed.

Lemma fill_walk_again m wh prev rest out :
  0 < m ->
  fill_walk m wh prev rest = Some out ->
  fill_walk m wh prev out = Some out.
Proof.
  intros Hm. destruct wh as [ws we]. revert prev out.
  induction rest as [|curr rest IH]; intros prev out; simpl.
  - by intros [= <-].
  - destruct (gap_between _ _ m (ws, we)) as [gap|] eqn:Hg; [|done]; simpl.
    destruct (fill_walk m (ws, we) curr rest) as [tl|] eqn:Hw; [|done]; simpl.
    intros [= <-]. specialize (IH curr tl Hw).
    destruct (gap_between_inv' _ _ _ _ _ Hg) as [->|[g ->]]; simpl.
    + by rewrite Hg, IH.
    + destruct (gap_between_filled _ _ _ _ _ _ Hm Hg) as [-> ->]; simpl.
      by rewrite IH.
Qed.

Lemma fill_walk_ascending m wh prev rest tail :
  0 <= m ->
  valid_interval prev -> Forall valid_interval rest ->
  ascending start_key (prev :: rest) ->
  fill_walk m wh prev rest = Some tail ->
  ascending start_key (prev :: tail).
Proof.
  intros Hm. unfold ascending. revert prev tail.
  induction rest as [|curr rest IH]; intros prev tail Hp Hv Hs; simpl.
  - intros [= <-]. repeat constructor.
  - destruct (gap_between _ _ m wh) as [gap|] eqn:Hg; [|done]; simpl.
    destruct (fill_walk m wh curr rest) as [tl|] eqn:Hw; [|done]; simpl.
    intros [= <-].
    apply Forall_cons in Hv as [Hc Hv].
    apply Sorted_inv in Hs as [Hs Hd]. apply HdRel_inv in Hd.
    specialize (IH curr tl Hc Hv Hs Hw).
    pose proof (gap_between_bounds _ _ _ _ _ Hg) as Hb.
    destruct (gap_between_inv' _ _ _ _ _ Hg) as [->|[g ->]]; simpl.
    + constructor; [done|]. by constructor.
    + apply Forall_cons in Hb as [(Hb1 & Hb2 & Hb3) _].
      unfold valid_interval, start_key, end_key in *.
      constructor; [|constructor; lia].
      constructor; [done|]. constructor. lia.
Qed.

(** X7: filling gaps a second time changes nothing: for a positive
    minimum gap and an ascending input of valid intervals, the gap filler
    applied to its own result returns that result. *)
Theorem fill_time_gaps_idempotent activities m wh out :
  0 < m ->
  ascending start_key activities ->
  Forall valid_interval activities ->
  fill_time_gaps activities m wh = Some out ->
  fill_time_gaps out m wh = Some out.
Proof.
  intros Hm Hasc Hv. rewrite !fill_time_gaps_walk.
  destruct (length activities <? 2)%nat eqn:Hlen.
  { intros [= <-]. by rewrite Hlen. }
  rewrite (py_sorted_id _ _ Hasc).
  destruct activities as [|first rest]; [done|].
  destruct (fill_walk m wh first rest) as [tail|] eqn:Hw; [|done]; simpl.
  intros [= <-]. apply Forall_cons in Hv as [Hf Hv].
  pose proof (interleaved_length _ _ _ (fill_walk_interleaved _ _ _ _ _ Hw)) as Hl.
  assert ((length (first :: tail) <? 2)%nat = false) as ->.
  { apply Nat.ltb_ge. apply Nat.ltb_ge in Hlen. simpl in *. lia. }
  rewrite (py_sorted_id start_key (first :: tail)).
  - by rewrite (fill_walk_again _ _ _ _ _ Hm Hw).
  - eapply fill_walk_ascending; [| | | |exact Hw]; [lia|done..].
Qed.

Lemma fill_time_gaps_idempotent_witness :
  fill_time_gaps
    [ex_morning;
     gap_activity (utc 2024 1 1 9 0) (utc 2024 1 1 12 0) (inject_Z 180);
     ex_noon] 30 (9, 17)
  = Some [ex_morning;
          gap_activity (utc 2024 1 1 9 0) (utc 2024 1 1 12 0) (inject_Z 180);
          ex_noon].
Proof.
  apply (fill_time_gaps_idempotent [ex_morning; ex_noon]).
  - lia.
  - repeat constructor. vm_compute. discriminate.
  - repeat constructor; vm_compute; discriminate.
  - vm_compute. reflexivity.
Defined.

Lemma replace_hour_None t h :
  Datetime.replace_hour t h = None <-> ~ valid_hour h.
Proof.
  unfold Datetime.replace_hour, valid_hour.
  destruct (Z.leb_spec 0 h); destruct (Z.ltb_spec h 24); simpl;
    split; try done; try lia.
Qed.

Lemma gap_between_None prev_end curr_start m ws we :
  gap_between prev_end curr_start m (ws, we) = None
  <-> (~ valid_hour ws \/ ~ valid_hour we)
      /\ m * 60000000 <= Datetime.instant curr_start - Datetime.instant prev_end.
Proof.
  unfold gap_between. rewrite Qle_bool_total_minutes_r.
  unfold Datetime.sub at 1.
  destruct (Z.leb_spec (m * 60000000)
              (Datetime.instant curr_start - Datetime.instant prev_end)) as [H|H].
  - destruct (Datetime.replace_hour prev_end ws) as [ds|] eqn:Hds.
    + destruct (Datetime.replace_hour prev_end we) as [de|] eqn:Hde;
        cbn [mbind option_bind].
      * split.
        { by destruct (Qle_bool _ _). }
        intros [[Hn|Hn] _];
          apply (replace_hour_None prev_end) in Hn; congruence.
      * split; [|done]. intros _. split; [|done].
        right. by apply (replace_hour_None prev_end).
    + cbn [mbind option_bind]. split; [|done]. intros _. split; [|done].
      left. by apply (replace_hour_None prev_end).
  - split; [done|]. intros [_ ?]. lia.
Qed.

Lemma wide_silence_cons m prev curr rest :
  wide_silence m (prev :: curr :: rest)
  <-> m * 60000000 <= start_key curr - end_key prev
      \/ wide_silence m (curr :: rest).
Proof.
  unfold wide_silence. split.
  - intros ([|i] & p & c & Hp & Hc & Hm); simpl in *.
    + left. by simplify_eq.
    + right. by exists i, p, c.
  - intros [Hm|(i & p & c & Hp & Hc & Hm)].
    + by exists 0%nat, prev, curr.
    + by exists (S i), p, c.
Qed.

Lemma fill_walk_None m ws we prev rest :
  fill_walk m (ws, we) prev rest = None
  <-> (~ valid_hour ws \/ ~ valid_hour we) /\ wide_silence m (prev :: rest).
Proof.
  revert prev. induction rest as [|curr rest IH]; intros prev; simpl.
  - split; [done|]. intros [_ ([|i] & p & c & _ & Hc & _)]; done.
  - rewrite wide_silence_cons.
    specialize (IH curr).
    pose proof (gap_between_None (end_time prev) (start_time curr) m ws we) as Hg.
    fold (start_key curr) in Hg. fold (end_key prev) in Hg.
    destruct (gap_between _ _ m (ws, we)) as [gap|]; simpl.
    + destruct (fill_walk m (ws, we) curr rest) as [tl|]; simpl.
      * split; [done|]. intros [Hh [Hm|Hw]]; exfalso.
        { destruct Hg as [_ Hg]. by specialize (Hg (conj Hh Hm)). }
        { destruct IH as [_ IH]. by specialize (IH (conj Hh Hw)). }
      * split; [|done]. intros _.
        destruct IH as [IH _]. destruct (IH eq_refl) as [Hh Hw]. auto.
    + split; [|done]. intros _.
      destruct Hg as [Hg _]. destruct (Hg eq_refl) as [Hh Hm]. auto.
Qed.

(** X8: the gap filler fails (the [ValueError] of [replace]) exactly when
    a working hour is not an hour of the day and two neighbours of the
    sorted input are at least the minimum gap apart; with fewer than two
    activities, or without such a silence, the hours are never looked
    at. *)
Theorem fill_time_gaps_fails_iff activities m ws we :
  fill_time_gaps activities m (ws, we) = None
  <-> (~ valid_hour ws \/ ~ valid_hour we)
      /\ wide_silence m (py_sorted start_key activities).
Proof.
  rewrite fill_time_gaps_walk.
  pose proof (py_sorted_length start_key activities) as Hl.
  destruct (length activities <? 2)%nat eqn:Hlen.
  - apply Nat.ltb_lt in Hlen. split; [done|].
    intros [_ (i & p & c & Hp & Hc & _)].
    apply lookup_lt_Some in Hc. lia.
  - apply Nat.ltb_ge in Hlen.
    destruct (py_sorted start_key activities) as [|first rest];
      [simpl in Hl; lia|].
    rewrite <- fill_walk_None.
    by destruct (fill_walk m (ws, we) first rest).
Qed.

(** ** The submission step: accounting *)

(** X9: whenever the step returns, every entry is accounted for exactly
    once: the counts of successes, errors and skipped entries add up to
    the number of entries; and it returns unless a call to [log_work]
    raises. *)
Theorem submit_counts_every_entry log_work times60 entries :
  (forall r,
     submit_time_entries log_work times60 entries = Some r ->
     (success r + error r + skipped r = length entries)%nat)
  /\ (submit_time_entries log_work times60 entries = None
      <-> Raised ∈ call_outcomes log_work times60 0
                     (List.filter (is_submitted times60) entries)).
Proof.
  destruct (submit_loop_spec log_work times60 entries) as (Hrun & _ & Hcount).
  split.
  - intros r Hr. apply submit_time_entries_Some in Hr. rewrite Hr in *.
    cbn [fst snd] in *. destruct (Hcount eq_refl) as (H1 & H2 & H3 & _).
    symmetry in Hrun. apply negb_true_iff in Hrun.
    pose proof (answered_outcomes _ Hrun) as Hans.
    rewrite length_call_outcomes in Hans.
    pose proof (filter_split_length (is_submitted times60) entries). lia.
  - rewrite submit_time_entries_None, Hrun, negb_false_iff.
    apply existsb_is_raised.
Qed.

Lemma submit_counts_every_entry_witness :
  submit_time_entries ex_second_refused exact_times60 ex_entries = Some ex_results
  /\ (success ex_results + error ex_results + skipped ex_results
      = length ex_entries)%nat.
Proof.
  assert (submit_time_entries ex_second_refused exact_times60 ex_entries
          = Some ex_results) as H by (vm_compute; reflexivity).
  split; [exact H|].
  exact (proj1 (submit_counts_every_entry ex_second_refused exact_times60
                  ex_entries) ex_results H).
Defined.

(** X10: whenever the step returns, the entries reported as failed are,
    in order, exactly the entries whose call to [log_work] returned
    false, the error count is their number, and the success count is the
    number of calls that returned true.  The outcome is that of the call:
    of two equal entries one may be reported and the other not. *)
Theorem submit_reports_failures log_work times60 entries r :
  submit_time_entries log_work times60 entries = Some r ->
  let subs := List.filter (is_submitted times60) entries in
  let outs := call_outcomes log_work times60 0 subs in
  errors r = map fst (List.filter (fun p => is_failed (snd p)) (zip subs outs))
  /\ error r = length (List.filter is_failed outs)
  /\ success r = length (List.filter is_logged outs).
Proof.
  intros Hr subs outs. apply submit_time_entries_Some in Hr.
  destruct (submit_loop_spec log_work times60 entries) as (_ & _ & Hcount).
  rewrite Hr in Hcount. cbn [fst snd] in Hcount.
  destruct (Hcount eq_refl) as (_ & H2 & H3 & H4). done.
Qed.

Lemma submit_reports_failures_witness :
  submit_time_entries ex_second_refused exact_times60 ex_entries = Some ex_results
  /\ errors ex_results
     = map fst
         (List.filter (fun p => is_failed (snd p))
            (zip [ex_logged; ex_logged; ex_logged] [Logged; Failed; Logged]))
  /\ error ex_results = length (List.filter is_failed [Logged; Failed; Logged])
  /\ success ex_results = length (List.filter is_logged [Logged; Failed; Logged]).
Proof.
  assert (submit_time_entries ex_second_refused exact_times60 ex_entries
          = Some ex_results) as H by (vm_compute; reflexivity).
  split; [exact H|].
  exact (submit_reports_failures ex_second_refused exact_times60 ex_entries
           ex_results H).
Defined.

(** X11: every call made to [log_work], in a run that returns and in one
    that a raising call cuts short, carries at least 60 seconds and a
    ticket that is truthy and not the sentinel. *)
Theorem submit_calls_are_loggable log_work times60 entries :
  Forall (fun w => 60 <= time_spent_seconds w
                   /\ py_truthy (issue_key w) = true
                   /\ issue_key w <> VStr "unknown")
    (calls_made log_work times60 entries).
Proof.
  unfold calls_made.
  destruct (submit_loop_spec log_work times60 entries) as (_ & H1 & _).
  rewrite H1. apply Forall_take.
  apply Forall_forall. intros w Hw.
  apply list_elem_of_In, in_map_iff in Hw as (e & <- & He).
  apply filter_In in He as [_ He].
  unfold is_submitted, ticket_usable in He.
  apply andb_true_iff in He as [Ht Hs]. apply Z.leb_le in Hs.
  unfold worklog_of. cbn [time_spent_seconds issue_key].
  split; [done|].
  destruct (jira_issue e) as [v|]; [|done].
  apply andb_true_iff in Ht as [Hv Hu]. apply negb_true_iff in Hu.
  split; [done|]. by apply is_unknown_false.
Qed.

(** ** The time-spent string *)

(** X12: [log_work] logs whole minutes only: the seconds beyond the last
    whole minute do not change the time-spent string, and anything from 0
    to 59 seconds is logged as one minute. *)
Theorem time_spent_whole_minutes :
  (forall s, time_spent_string s = time_spent_string (60 * (s / 60)))
  /\ (forall s, time_spent_string (s mod 60) = "1m").
Proof.
  split; intros s; unfold time_spent_string.
  - replace (60 * (s / 60) / 3600) with (s / 3600)
      by (Z.to_euclidean_division_equations; lia).
    replace ((60 * (s / 60)) mod 3600 / 60) with (s mod 3600 / 60)
      by (Z.to_euclidean_division_equations; lia).
    reflexivity.
  - replace (s mod 60 / 3600) with 0
      by (Z.to_euclidean_division_equations; lia).
    replace ((s mod 60) mod 3600 / 60) with 0
      by (Z.to_euclidean_division_equations; lia).
    reflexivity.
Qed.

(** ** The daily totals *)

Lemma py_add_correct a b : (py_add a b == a + b)%Q.
Proof. apply Qred_correct. Qed.

Lemma Qsum_perm l l' : l ≡ₚ l' -> (Qsum l == Qsum l')%Q.
Proof.
  induction 1 as [|x l l' _ IH|x y l|l l' l'' _ IH1 _ IH2]; simpl.
  - reflexivity.
  - by rewrite IH.
  - ring.
  - by rewrite IH1.
Qed.

Lemma Qsum_cons x l : Qsum (x :: l) = (x + Qsum l)%Q.
Proof. reflexivity. Qed.

Lemma add_to_sum k q d :
  (Qsum (add_to k q d).*2 == Qsum d.*2 + q)%Q.
Proof.
  induction d as [|[k' x] d IH]; cbn [add_to].
  - rewrite fmap_cons, Qsum_cons. cbn [snd]. rewrite py_add_correct.
    cbn. ring.
  - destruct (py_eq k' k); rewrite !fmap_cons, !Qsum_cons; cbn [snd].
    + rewrite py_add_correct. ring.
    + rewrite IH. ring.
Qed.

Lemma day_totals_from_None l :
  fold_left (fun o a => t ← o; totals_step t a) l None = None.
Proof. induction l as [|a l IH]; simpl; [done|apply IH]. Qed.

Lemma day_totals_from_cons t a l :
  day_totals_from t (a :: l) = (t' ← totals_step t a; day_totals_from t' l).
Proof.
  unfold day_totals_from; simpl.
  destruct (totals_step t a); simpl; [done|apply day_totals_from_None].
Qed.

Lemma totals_step_Some t a t' :
  totals_step t a = Some t' <->
  exists q,
    duration_of a = Some q
    /\ hashable (task_type_of a) = true
    /\ hashable (jira_issue_of a) = true
    /\ t' = {| total_minutes := py_add (total_minutes t) q;
               billable_minutes :=
                 if py_truthy (billable_of a)
                 then py_add (billable_minutes t) q
                 else billable_minutes t;
               task_types := add_to (task_type_of a) q (task_types t);
               jira_issues := add_to (jira_issue_of a) q (jira_issues t) |}.
Proof.
  unfold totals_step.
  destruct (duration_of a) as [q|]; simpl.
  - destruct (hashable (task_type_of a)); simpl.
    + destruct (hashable (jira_issue_of a)); simpl.
      * split; [intros [= <-]; by exists q|].
        by intros (q' & [= <-] & _ & _ & ->).
      * split; [done|]. by intros (q' & _ & _ & ? & _).
    + split; [done|]. by intros (q' & _ & ? & _).
  - split; [done|]. by intros (q' & ? & _).
Qed.

(** What the inner loop has added up when it ends. *)
Lemma day_totals_from_sums t0 l t :
  day_totals_from t0 l = Some t ->
  (total_minutes t == total_minutes t0 + Qsum (minutes_of <$> l))%Q
  /\ (Qsum (task_types t).*2 == Qsum (task_types t0).*2 + Qsum (minutes_of <$> l))%Q
  /\ (Qsum (jira_issues t).*2
      == Qsum (jira_issues t0).*2 + Qsum (minutes_of <$> l))%Q.
Proof.
  revert t0. induction l as [|a l IH]; intros t0.
  - intros [= <-]. rewrite fmap_nil. change (Qsum []) with 0%Q.
    split; [|split]; ring.
  - rewrite day_totals_from_cons.
    destruct (totals_step t0 a) as [t1|] eqn:Hs; [|done].
    cbn [mbind option_bind].
    intros Ht. destruct (IH t1 Ht) as (H1 & H2 & H3).
    apply totals_step_Some in Hs as (q & Hq & _ & _ & ->).
    cbn [total_minutes task_types jira_issues] in *.
    rewrite fmap_cons, Qsum_cons. unfold minutes_of at 1 3 5. rewrite Hq.
    cbn [default from_option id].
    rewrite H1, H2, H3, py_add_correct, !add_to_sum.
    split; [|split]; ring.
Qed.

Lemma day_totals_from_billable t0 l t :
  day_totals_from t0 l = Some t ->
  Forall (fun a => (0 <= minutes_of a)%Q) l ->
  (0 <= billable_minutes t0)%Q ->
  (billable_minutes t0 <= total_minutes t0)%Q ->
  (0 <= billable_minutes t)%Q /\ (billable_minutes t <= total_minutes t)%Q.
Proof.
  revert t0. induction l as [|a l IH]; intros t0.
  - by intros [= <-].
  - rewrite day_totals_from_cons.
    destruct (totals_step t0 a) as [t1|] eqn:Hs; [|done]; simpl.
    intros Ht Hnn H0 Hle. apply Forall_cons in Hnn as [Ha Hnn].
    apply totals_step_Some in Hs as (q & Hq & _ & _ & ->).
    unfold minutes_of in Ha. rewrite Hq in Ha. simpl in Ha.
    apply (IH _ Ht Hnn); cbn [total_minutes billable_minutes].
    + destruct (py_truthy (billable_of a)); [|done].
      setoid_rewrite py_add_correct.
      setoid_rewrite <- (Qplus_0_r 0) at 1. by apply Qplus_le_compat.
    + setoid_rewrite py_add_correct at 2.
      destruct (py_truthy (billable_of a)).
      * setoid_rewrite py_add_correct.
        apply Qplus_le_compat; [done|apply Qle_refl].
      * setoid_rewrite <- (Qplus_0_r (billable_minutes t0)) at 1.
        by apply Qplus_le_compat.
Qed.

Lemma day_totals_from_is_Some t0 l :
  is_Some (day_totals_from t0 l)
  <-> Forall (fun a => is_Some (duration_of a)
                       /\ hashable (task_type_of a) = true
                       /\ hashable (jira_issue_of a) = true) l.
Proof.
  revert t0. induction l as [|a l IH]; intros t0.
  - split; [constructor|]. intros _. by eexists.
  - rewrite day_totals_from_cons, Forall_cons.
    destruct (totals_step t0 a) as [t1|] eqn:Hs; simpl.
    + rewrite IH.
      apply totals_step_Some in Hs as (q & Hq & Ht & Hj & _).
      rewrite Hq. split; [|by intros [_ ?]].
      intros Hl. split; [|done]. split; [by eexists|done].
    + split; [by intros [? ?]|].
      intros [(Hd & Ht & Hj) _]. destruct Hd as [q Hq].
      assert (is_Some (totals_step t0 a)) as [? ?]; [|congruence].
      eexists. apply totals_step_Some. by exists q.
Qed.

Lemma rows_lookup {A B} (f : A -> option B) (l : list (string * A))
    (rows : list (string * B)) k :
  Forall2 (fun x y => (let '(i, a) := x in t ← f a; Some (i, t)) = Some y) l rows ->
  (list_to_map rows : gmap string B) !! k
  = (list_to_map l : gmap string A) !! k ≫= f.
Proof.
  induction 1 as [|[i a] [j t] l rows Hrow _ IH]; simpl.
  - by rewrite !lookup_empty.
  - destruct (f a) as [t'|] eqn:Hf; simpl in Hrow; [|done].
    injection Hrow as <- <-.
    destruct (decide (i = k)) as [->|Hne].
    + rewrite !lookup_insert_eq. simpl. by rewrite Hf.
    + rewrite !lookup_insert_ne by done. apply IH.
Qed.

Lemma group_lookup activities d :
  group_activities_by_day activities !! d =
    match on_day d activities with
    | [] => None
    | l => Some (py_sorted start_key l)
    end.
Proof.
  unfold group_activities_by_day, on_day.
  rewrite lookup_fmap, group_fold_lookup, lookup_empty.
  by destruct (filter _ activities).
Qed.

(** The totals of a day are those of the activities that start on it, in
    the order of their start. *)
Lemma calculate_daily_totals_lookup activities totals d :
  calculate_daily_totals activities = Some totals ->
  totals !! d =
    match on_day d activities with
    | [] => None
    | l => day_totals_of (py_sorted start_key l)
    end.
Proof.
  unfold calculate_daily_totals.
  destruct (mapM _ _) as [rows|] eqn:Hrows; [|done]; simpl.
  intros [= <-]. apply mapM_Some in Hrows.
  rewrite (rows_lookup day_totals_of _ _ d Hrows).
  rewrite list_to_map_to_list, group_lookup.
  by destruct (on_day d activities).
Qed.

Lemma calculate_daily_totals_day activities totals d t :
  calculate_daily_totals activities = Some totals ->
  totals !! d = Some t ->
  day_totals_of (py_sorted start_key (on_day d activities)) = Some t.
Proof.
  intros Hc Ht. rewrite (calculate_daily_totals_lookup _ _ d Hc) in Ht.
  by destruct (on_day d activities).
Qed.

(** X13: the total of a day is the sum of the [duration_minutes] of the
    activities that start on that day (an activity without one counts for
    0), in exact arithmetic. *)
Theorem daily_total_is_sum activities totals d t :
  calculate_daily_totals activities = Some totals ->
  totals !! d = Some t ->
  (total_minutes t == Qsum (minutes_of <$> on_day d activities))%Q.
Proof.
  intros Hc Ht.
  apply (calculate_daily_totals_day _ _ _ _ Hc), day_totals_from_sums in Ht
    as (H1 & _ & _).
  rewrite H1. cbn [total_minutes].
  rewrite (Qsum_perm _ (minutes_of <$> on_day d activities)).
  - ring.
  - by rewrite py_sorted_perm.
Qed.

Lemma daily_total_is_sum_witness :
  (total_minutes ex_day_totals
   == Qsum (minutes_of <$> on_day "2024-01-01" ex_timeline))%Q.
Proof.
  apply (daily_total_is_sum ex_timeline {[ "2024-01-01" := ex_day_totals ]}
           "2024-01-01");
    vm_compute; reflexivity.
Defined.

(** X14: the per-task-type totals of a day add up to the day's total, and
    so do its per-ticket totals, in exact arithmetic: every activity is
    counted under exactly one task type and one ticket. *)
Theorem daily_breakdowns_add_up activities totals d t :
  calculate_daily_totals activities = Some totals ->
  totals !! d = Some t ->
  (Qsum (task_types t).*2 == total_minutes t)%Q
  /\ (Qsum (jira_issues t).*2 == total_minutes t)%Q.
Proof.
  intros Hc Ht.
  apply (calculate_daily_totals_day _ _ _ _ Hc), day_totals_from_sums in Ht
    as (H1 & H2 & H3).
  rewrite H1, H2, H3. cbn [total_minutes task_types jira_issues].
  rewrite fmap_nil. done.
Qed.

Lemma daily_breakdowns_add_up_witness :
  (Qsum (task_types ex_day_totals).*2 == total_minutes ex_day_totals)%Q
  /\ (Qsum (jira_issues ex_day_totals).*2 == total_minutes ex_day_totals)%Q.
Proof.
  apply (daily_breakdowns_add_up ex_timeline
           {[ "2024-01-01" := ex_day_totals ]} "2024-01-01");
    vm_compute; reflexivity.
Defined.

(** X15: when no activity of the day has a negative duration, the
    billable minutes of the day lie between 0 and its total. *)
Theorem daily_billable_within_total activities totals d t :
  calculate_daily_totals activities = Some totals ->
  totals !! d = Some t ->
  Forall (fun a => (0 <= minutes_of a)%Q) (on_day d activities) ->
  (0 <= billable_minutes t)%Q /\ (billable_minutes t <= total_minutes t)%Q.
Proof.
  intros Hc Ht Hnn.
  apply (calculate_daily_totals_day _ _ _ _ Hc) in Ht.
  apply (day_totals_from_billable _ _ _ Ht); cbn; try done.
  by rewrite py_sorted_perm.
Qed.

Lemma daily_billable_within_total_witness :
  (0 <= billable_minutes ex_day_totals)%Q
  /\ (billable_minutes ex_day_totals <= total_minutes ex_day_totals)%Q.
Proof.
  apply (daily_billable_within_total ex_timeline
           {[ "2024-01-01" := ex_day_totals ]} "2024-01-01").
  - vm_compute. reflexivity.
  - vm_compute. reflexivity.
  - repeat constructor; vm_compute; discriminate.
Defined.

Lemma on_day_elem a d activities :
  a ∈ on_day d activities <-> day_key a = d /\ a ∈ activities.
Proof. unfold on_day. by rewrite list_elem_of_filter. Qed.

Lemma group_lookup_Some activities d l :
  group_activities_by_day activities !! d = Some l
  <-> on_day d activities <> []
      /\ l = py_sorted start_key (on_day d activities).
Proof.
  rewrite group_lookup.
  destruct (on_day d activities) as [|b l']; split.
  - done.
  - by intros [? _].
  - by intros [= <-].
  - by intros [_ ->].
Qed.

Lemma calculate_daily_totals_is_Some activities :
  is_Some (calculate_daily_totals activities)
  <-> Forall (fun a => is_Some (duration_of a)
                       /\ hashable (task_type_of a) = true
                       /\ hashable (jira_issue_of a) = true) activities.
Proof.
  unfold calculate_daily_totals.
  set (f := fun '(day_str, day_activities) =>
              t ← day_totals_of day_activities;
              Some ((day_str, t) : string * day_totals)).
  transitivity
    (is_Some (mapM f (map_to_list (group_activities_by_day activities)))).
  { destruct (mapM f _); simpl; split; intros [? ?]; by eauto. }
  rewrite mapM_is_Some, !Forall_forall. split.
  - intros H a Ha.
    assert (a ∈ on_day (day_key a) activities) as Hin
      by (by apply on_day_elem).
    specialize (H (day_key a,
                   py_sorted start_key (on_day (day_key a) activities))).
    assert (is_Some (day_totals_of
                       (py_sorted start_key (on_day (day_key a) activities))))
      as Hs.
    { assert ((is_Some ∘ f)
                (day_key a,
                 py_sorted start_key (on_day (day_key a) activities))) as Hf.
      { apply H. apply elem_of_map_to_list. apply group_lookup_Some.
        split; [|done]. intros Hnil. rewrite Hnil in Hin.
        by apply elem_of_nil in Hin. }
      unfold f, compose in Hf.
      destruct (day_totals_of _) as [t|]; [by eexists|].
      by destruct Hf. }
    apply day_totals_from_is_Some in Hs. rewrite Forall_forall in Hs.
    apply Hs. by rewrite py_sorted_perm.
  - intros H [d l] Hl. apply elem_of_map_to_list in Hl.
    apply group_lookup_Some in Hl as [_ ->].
    assert (is_Some (day_totals_of (py_sorted start_key (on_day d activities))))
      as [t Ht].
    { apply day_totals_from_is_Some, Forall_forall. intros a Ha.
      rewrite py_sorted_perm in Ha. apply on_day_elem in Ha as [_ Ha].
      by apply H. }
    unfold f, compose. rewrite Ht. by eexists.
Qed.

(** X16: the totals are computed (no [TypeError]) exactly when every
    activity's [duration_minutes] is absent or a number and its task type
    and ticket can be dict keys; the days of the result are then exactly
    the days on which some activity starts. *)
Theorem calculate_daily_totals_succeeds_iff activities :
  (is_Some (calculate_daily_totals activities)
   <-> Forall (fun a => is_Some (duration_of a)
                        /\ hashable (task_type_of a) = true
                        /\ hashable (jira_issue_of a) = true) activities)
  /\ (forall totals d,
        calculate_daily_totals activities = Some totals ->
        totals !! d = None <-> on_day d activities = []).
Proof.
  split; [apply calculate_daily_totals_is_Some|].
  intros totals d Hc.
  rewrite (calculate_daily_totals_lookup _ _ d Hc).
  destruct (on_day d activities) as [|b l] eqn:Hd; [done|].
  split; [|done]. intros Hnone. exfalso.
  assert (is_Some (day_totals_of (py_sorted start_key (b :: l)))) as [t Ht];
    [|congruence].
  apply day_totals_from_is_Some, Forall_forall. intros a Ha.
  rewrite py_sorted_perm, <- Hd in Ha. apply on_day_elem in Ha as [_ Ha].
  assert (is_Some (calculate_daily_totals activities)) as Hs by (by eexists).
  apply calculate_daily_totals_is_Some in Hs. rewrite Forall_forall in Hs.
  by apply Hs.
Qed.

(** ** Date arithmetic *)

Lemma days_before_year_split n400 n100 n4 n1 :
  0 <= n100 <= 3 -> 0 <= n4 <= 24 -> 0 <= n1 <= 3 ->
  Datetime.days_before_year (n400 * 400 + 1 + n100 * 100 + n4 * 4 + n1)
  = 146097 * n400 + 36524 * n100 + 1461 * n4 + 365 * n1.
Proof.
  intros. unfold Datetime.days_before_year. cbv zeta.
  Z.to_euclidean_division_equations; lia.
Qed.

Lemma is_leap_split n400 n100 n4 n1 :
  0 <= n100 <= 3 -> 0 <= n4 <= 24 -> 0 <= n1 <= 3 ->
  Datetime.is_leap (n400 * 400 + 1 + n100 * 100 + n4 * 4 + n1)
  = (n1 =? 3) && (negb (n4 =? 24) || (n100 =? 3)).
Proof.
  intros. unfold Datetime.is_leap.
  destruct (Z.eqb_spec n1 3); destruct (Z.eqb_spec n4 24); destruct (Z.eqb_spec n100 3);
  destruct (Z.eqb_spec ((n400 * 400 + 1 + n100 * 100 + n4 * 4 + n1) mod 4) 0);
  destruct (Z.eqb_spec ((n400 * 400 + 1 + n100 * 100 + n4 * 4 + n1) mod 100) 0);
  destruct (Z.eqb_spec ((n400 * 400 + 1 + n100 * 100 + n4 * 4 + n1) mod 400) 0);
  simpl; try reflexivity; exfalso; Z.to_euclidean_division_equations; lia.
Qed.

Ltac closed_months :=
  repeat match goal with
         | |- context [Z.pos ?a - 1] =>
             let v := eval cbv in (Z.pos a - 1) in
             change (Z.pos a - 1) with v
         end;
  cbn -[Z.mul Z.add Z.sub].

Lemma ord2ymd_ymd2ord n :
  1 <= n -> let '(y, m, d) := ord2ymd n in Datetime.ymd2ord y m d = n.
Proof.
  intros Hn. unfold ord2ymd.
  assert (n = (n - 1) + 1) as Hn0 by lia.
  set (n0 := n - 1) in *. assert (0 <= n0) by lia. clearbody n0. subst n.
  pose proof (Z.div_mod n0 146097 ltac:(lia)) as E400.
  pose proof (Z.mod_pos_bound n0 146097 ltac:(lia)) as B400.
  set (q400 := n0 / 146097) in *. set (r400 := n0 mod 146097) in *.
  pose proof (Z.div_mod r400 36524 ltac:(lia)) as E100.
  pose proof (Z.mod_pos_bound r400 36524 ltac:(lia)) as B100.
  set (q100 := r400 / 36524) in *. set (r100 := r400 mod 36524) in *.
  pose proof (Z.div_mod r100 1461 ltac:(lia)) as E4.
  pose proof (Z.mod_pos_bound r100 1461 ltac:(lia)) as B4.
  set (q4 := r100 / 1461) in *. set (r4 := r100 mod 1461) in *.
  pose proof (Z.div_mod r4 365 ltac:(lia)) as E1.
  pose proof (Z.mod_pos_bound r4 365 ltac:(lia)) as B1.
  set (q1 := r4 / 365) in *. set (r1 := r4 mod 365) in *.
  clearbody q400 r400 q100 r100 q4 r4 q1 r1. cbv zeta.
  assert (0 <= q400) by lia.
  assert (0 <= q100 <= 4) by lia.
  assert (0 <= q4 <= 24) by lia.
  assert (0 <= q1 <= 4) by lia.
  destruct (Z.eqb_spec q1 4) as [Hq1|Hq1];
    [|destruct (Z.eqb_spec q100 4) as [Hq100|Hq100]]; cbn [orb].
  - assert (Datetime.is_leap (q400 * 400 + 1 + q100 * 100 + q4 * 4 + q1 - 1) = true) as Hl.
    { unfold Datetime.is_leap. subst q1.
      replace ((q400 * 400 + 1 + q100 * 100 + q4 * 4 + 4 - 1) mod 4) with 0
        by (Z.to_euclidean_division_equations; lia).
      destruct (Z.eqb_spec
                  ((q400 * 400 + 1 + q100 * 100 + q4 * 4 + 4 - 1) mod 100) 0)
        as [E|E]; [|reflexivity].
      exfalso. Z.to_euclidean_division_equations. lia. }
    unfold Datetime.ymd2ord, Datetime.days_before_month. rewrite Hl.
    change (if (2 <? 12) && true then 1 else 0) with 1.
    replace (q400 * 400 + 1 + q100 * 100 + q4 * 4 + q1 - 1)
      with (q400 * 400 + 1 + q100 * 100 + q4 * 4 + 3) by lia.
    rewrite days_before_year_split by lia.
    lia.
  - assert (Datetime.is_leap (q400 * 400 + 1 + q100 * 100 + q4 * 4 + q1 - 1) = true) as Hl.
    { unfold Datetime.is_leap.
      replace (q400 * 400 + 1 + q100 * 100 + q4 * 4 + q1 - 1)
        with ((q400 + 1) * 400) by lia.
      rewrite !Z.mod_mul by lia.
      replace (((q400 + 1) * 400) mod 4) with 0
        by (Z.to_euclidean_division_equations; lia).
      change (0 =? 0) with true. rewrite orb_true_r. reflexivity. }
    unfold Datetime.ymd2ord, Datetime.days_before_month. rewrite Hl.
    change (if (2 <? 12) && true then 1 else 0) with 1.
    replace (q400 * 400 + 1 + q100 * 100 + q4 * 4 + q1 - 1)
      with (q400 * 400 + 1 + 3 * 100 + 24 * 4 + 3) by lia.
    rewrite days_before_year_split by lia.
    lia.
  - rewrite Z.shiftr_div_pow2 by lia. change (2 ^ 5) with 32.
    pose proof (Z.div_mod (r1 + 50) 32 ltac:(lia)) as Em.
    pose proof (Z.mod_pos_bound (r1 + 50) 32 ltac:(lia)) as Bm.
    set (m0 := (r1 + 50) / 32) in *. clearbody m0.
    generalize dependent ((r1 + 50) mod 32). intros rm Em Bm.
    assert (Datetime.is_leap (q400 * 400 + 1 + q100 * 100 + q4 * 4 + q1)
            = (q1 =? 3) && (negb (q4 =? 24) || (q100 =? 3))) as Hl
      by (apply is_leap_split; lia).
    set (leap := (q1 =? 3) && (negb (q4 =? 24) || (q100 =? 3))) in *.
    clearbody leap.
    assert (m0 = 1 \/ m0 = 2 \/ m0 = 3 \/ m0 = 4 \/ m0 = 5 \/ m0 = 6 \/ m0 = 7
            \/ m0 = 8 \/ m0 = 9 \/ m0 = 10 \/ m0 = 11 \/ m0 = 12) as Hm by lia.
    assert (Datetime.days_before_year (q400 * 400 + 1 + q100 * 100 + q4 * 4 + q1)
            = 146097 * q400 + 36524 * q100 + 1461 * q4 + 365 * q1) as Hy
      by (apply days_before_year_split; lia).
    repeat (destruct Hm as [Hm|Hm]); subst m0;
      destruct leap; closed_months;
      match goal with
      | |- context [?a <? ?b] => destruct (Z.ltb_spec a b)
      end;
      unfold Datetime.ymd2ord, Datetime.days_before_month; rewrite Hl, Hy;
      closed_months; lia.
Qed.

(** Adding whole days moves the instant by that many days. *)
Lemma add_days_instant t n t' :
  add_days t n = Some t' ->
  Datetime.instant t' = Datetime.instant t + n * 86400000000.
Proof.
  unfold add_days.
  destruct (Z.leb_spec 1 (Datetime.ymd2ord (year t) (month t) (day t) + n));
    [|done].
  destruct (_ <=? MAXORDINAL); [|done]. cbn [andb].
  pose proof (ord2ymd_ymd2ord
                (Datetime.ymd2ord (year t) (month t) (day t) + n)) as Hrt.
  destruct (ord2ymd _) as [[y m] d]. intros [= <-].
  destruct t as [y0 m0 d0 h mi s us off].
  cbn [year month day hour minute second microsecond utcoffset] in *.
  unfold Datetime.instant. rewrite Hrt by done. lia.
Qed.

Lemma end_of_day_instant y m d us off :
  Datetime.instant (end_of_day (mk_datetime y m d 0 0 0 us off))
  = Datetime.instant (mk_datetime y m d 0 0 0 us off) + 86399000000.
Proof. unfold end_of_day, Datetime.instant; cbn [year month day microsecond utcoffset]. lia. Qed.

Lemma add_days_time_of_day t n t' :
  add_days t n = Some t' ->
  hour t' = hour t /\ minute t' = minute t /\ second t' = second t
  /\ microsecond t' = microsecond t /\ utcoffset t' = utcoffset t.
Proof.
  unfold add_days. destruct (_ && _); [|done].
  destruct (ord2ymd _) as [[y m] d]. by intros [= <-].
Qed.

Lemma split_on_length c s : length (split_on c s) = S (count_char c s).
Proof.
  induction s as [|x s IH]; simpl; [done|].
  destruct (Ascii.eqb x c); simpl; [by rewrite IH|].
  destruct (split_on c s); simpl in *; lia.
Qed.

Lemma contains_count c s : contains c s = true <-> (0 < count_char c s)%nat.
Proof.
  induction s as [|x s IH]; simpl; [split; [done|lia]|].
  destruct (Ascii.eqb x c); simpl; [split; [lia|done]|done].
Qed.

Section DateRangeFacts.
Variable strptime_ymd : string -> option (Z * Z * Z).
Variable now : datetime.

(** X17: for a single date, [get_date_range] returns the range from
    midnight of that day to 23:59:59 of the day [days] days later: with
    the default of one day the range is two days long, less a second. *)
Theorem get_date_range_single_span s days y m d start_date end_date :
  s <> "" ->
  contains colon s = false ->
  strptime_ymd s = Some (y, m, d) ->
  get_date_range strptime_ymd now (Some s) days = Some (start_date, end_date) ->
  start_date = mk_datetime y m d 0 0 0 0 TIME_ZONE
  /\ Datetime.instant end_date
     = Datetime.instant start_date + (days * 86400 + 86399) * 1000000.
Proof.
  intros Hne Hc Hp. unfold get_date_range, parse_date.
  apply String.eqb_neq in Hne. rewrite Hne, Hc, Hp. cbn [mbind option_bind].
  destruct (add_days _ days) as [e|] eqn:He; [|done]. cbn [mbind option_bind].
  intros [= <- <-]. split; [done|].
  pose proof (add_days_instant _ _ _ He) as Hi.
  apply add_days_time_of_day in He as (Hh & Hmi & Hs & Hus & Hoff).
  destruct e as [ye me de h mi sec us off].
  cbn [hour minute second microsecond utcoffset] in *. subst.
  rewrite end_of_day_instant, Hi. lia.
Qed.


(** X18: on a single date the two entry points differ: [auto_run] ends
    the range at 23:59:59 of that day, [get_date_range] with its default
    of one day ends it a day later. *)
Theorem single_date_entry_points_differ s start_date end_date start' end' :
  s <> "" ->
  contains colon s = false ->
  get_date_range strptime_ymd now (Some s) 1 = Some (start_date, end_date) ->
  auto_run_date_range strptime_ymd now (Some s) = Some (start', end') ->
  start_date = start'
  /\ Datetime.instant end_date = Datetime.instant end' + 86400000000.
Proof.
  intros Hne Hc. unfold get_date_range, auto_run_date_range.
  apply String.eqb_neq in Hne. rewrite Hne, Hc. unfold parse_date.
  destruct (strptime_ymd s) as [[[y m] d]|]; [|done]. cbn [mbind option_bind].
  destruct (add_days _ 1) as [e|] eqn:He; [|done]. cbn [mbind option_bind].
  intros [= <- <-] [= <- <-]. split; [done|].
  pose proof (add_days_instant _ _ _ He) as Hi.
  apply add_days_time_of_day in He as (Hh & Hmi & Hs & Hus & Hoff).
  destruct e as [ye me de h mi sec us off].
  cbn [hour minute second microsecond utcoffset] in *. subst.
  rewrite !end_of_day_instant, Hi. lia.
Qed.


(** X19: a date string with more than one colon is rejected by both entry
    points (the [ValueError] of the unpacking). *)
Theorem date_range_rejects_extra_colons s days :
  (1 < count_char colon s)%nat ->
  get_date_range strptime_ymd now (Some s) days = None
  /\ auto_run_date_range strptime_ymd now (Some s) = None.
Proof.
  intros Hn. unfold get_date_range, auto_run_date_range.
  assert (String.eqb s "" = false) as ->.
  { apply String.eqb_neq. intros ->. simpl in Hn. lia. }
  assert (contains colon s = true) as -> by (apply contains_count; lia).
  pose proof (split_on_length colon s) as Hl.
  destruct (split_on colon s) as [|a [|b [|c l]]]; simpl in Hl; try done; lia.
Qed.


(** X20: [get_yesterday] returns the 24 hours that end at the midnight
    before [now]: the second instant is [now] with the time of day set to
    zero, the first is a day earlier, and [now] lies less than a day after
    the second. *)
Theorem get_yesterday_window yesterday today :
  valid_datetime now = true ->
  get_yesterday now = Some (yesterday, today) ->
  today = mk_datetime (year now) (month now) (day now) 0 0 0 0 (utcoffset now)
  /\ Datetime.instant today = Datetime.instant yesterday + 86400000000
  /\ Datetime.instant today <= Datetime.instant now
     < Datetime.instant today + 86400000000.
Proof.
  intros Hv. unfold get_yesterday.
  destruct (Datetime.replace_hour now 0) as [t|] eqn:Ht; [|done].
  cbn [mbind option_bind].
  destruct (add_days t (-1)) as [y|] eqn:Hy; [|done]. cbn [mbind option_bind].
  intros [= <- <-]. apply replace_hour_inv in Ht. split; [done|].
  apply add_days_instant in Hy. split; [lia|].
  subst t. unfold valid_datetime in Hv.
  repeat (apply andb_true_iff in Hv as [Hv ?]).
  destruct now as [y0 m0 d0 h mi s us off].
  cbn [year month day hour minute second microsecond utcoffset] in *.
  unfold Datetime.instant. lia.
Qed.

End DateRangeFacts.

Lemma get_date_range_single_span_witness :
  utc 2024 1 1 0 0 = mk_datetime 2024 1 1 0 0 0 0 TIME_ZONE
  /\ Datetime.instant (mk_datetime 2024 1 2 23 59 59 0 0)
     = Datetime.instant (utc 2024 1 1 0 0) + (1 * 86400 + 86399) * 1000000.
Proof.
  apply (get_date_range_single_span ex_strptime ex_now "2024-01-01" 1 2024 1 1).
  - discriminate.
  - reflexivity.
  - reflexivity.
  - vm_compute. reflexivity.
Defined.

Lemma single_date_entry_points_differ_witness :
  utc 2024 1 1 0 0 = utc 2024 1 1 0 0
  /\ Datetime.instant (mk_datetime 2024 1 2 23 59 59 0 0)
     = Datetime.instant (mk_datetime 2024 1 1 23 59 59 0 0) + 86400000000.
Proof.
  apply (single_date_entry_points_differ ex_strptime ex_now "2024-01-01").
  - discriminate.
  - reflexivity.
  - vm_compute. reflexivity.
  - vm_compute. reflexivity.
Defined.

Lemma date_range_rejects_extra_colons_witness :
  get_date_range ex_strptime ex_now (Some "2024-01-01:2024-01-02:2024-01-03") 1 = None
  /\ auto_run_date_range ex_strptime ex_now
       (Some "2024-01-01:2024-01-02:2024-01-03") = None.
Proof.
  apply date_range_rejects_extra_colons. vm_compute. lia.
Defined.

Lemma get_yesterday_window_witness :
  utc 2024 1 2 0 0
  = mk_datetime (year ex_now) (month ex_now) (day ex_now) 0 0 0 0 (utcoffset ex_now)
  /\ Datetime.instant (utc 2024 1 2 0 0)
     = Datetime.instant (utc 2024 1 1 0 0) + 86400000000
  /\ Datetime.instant (utc 2024 1 2 0 0) <= Datetime.instant ex_now
     < Datetime.instant (utc 2024 1 2 0 0) + 86400000000.
Proof.
  apply (get_yesterday_window ex_now (utc 2024 1 1 0 0) (utc 2024 1 2 0 0)).
  - reflexivity.
  - vm_compute. reflexivity.
Defined.

Lemma split_on_none c s : contains c s = false -> split_on c s = [s].
Proof.
  induction s as [|x s IH]; simpl; [done|].
  destruct (Ascii.eqb x c); simpl; [done|].
  intros Hc. by rewrite (IH Hc).
Qed.

Lemma split_on_first c a b :
  contains c a = false ->
  split_on c (a +:+ String c b) = a :: split_on c b.
Proof.
  induction a as [|x a IH]; simpl.
  - by rewrite Ascii.eqb_refl.
  - destruct (Ascii.eqb x c); simpl; [done|].
    intros Hc. by rewrite (IH Hc).
Qed.

Lemma contains_first c a b : contains c (a +:+ String c b) = true.
Proof.
  induction a as [|x a IH]; simpl.
  - by rewrite Ascii.eqb_refl.
  - rewrite IH. apply orb_true_r.
Qed.

Lemma append_nonempty a c b : String.eqb (a +:+ String c b) "" = false.
Proof. by destruct a. Qed.

(** X21: for a range [a:b] of two dates, [get_date_range] returns
    midnight of [a] and 23:59:59 of [b], whatever [days] is, and does not
    compare the two: when [b] is an earlier date than [a], the range it
    returns ends before it starts. *)
Theorem get_date_range_explicit_range strptime_ymd now a b days
    y1 m1 d1 y2 m2 d2 :
  contains colon a = false ->
  contains colon b = false ->
  strptime_ymd a = Some (y1, m1, d1) ->
  strptime_ymd b = Some (y2, m2, d2) ->
  let start_date := mk_datetime y1 m1 d1 0 0 0 0 TIME_ZONE in
  let end_date := mk_datetime y2 m2 d2 23 59 59 0 TIME_ZONE in
  get_date_range strptime_ymd now (Some (a +:+ String colon b)) days
  = Some (start_date, end_date)
  /\ (Datetime.ymd2ord y2 m2 d2 < Datetime.ymd2ord y1 m1 d1 ->
      Datetime.instant end_date < Datetime.instant start_date).
Proof.
  intros Ha Hb Hpa Hpb. cbv zeta. split.
  - unfold get_date_range.
    rewrite append_nonempty, contains_first, (split_on_first _ _ _ Ha),
      (split_on_none _ _ Hb).
    unfold parse_date. by rewrite Hpa, Hpb.
  - unfold Datetime.instant. lia.
Qed.

Lemma get_date_range_explicit_range_witness :
  get_date_range ex_strptime ex_now (Some "2024-01-01:2023-12-25") 1
  = Some (mk_datetime 2024 1 1 0 0 0 0 TIME_ZONE,
          mk_datetime 2023 12 25 23 59 59 0 TIME_ZONE)
  /\ (Datetime.ymd2ord 2023 12 25 < Datetime.ymd2ord 2024 1 1 ->
      Datetime.instant (mk_datetime 2023 12 25 23 59 59 0 TIME_ZONE)
      < Datetime.instant (mk_datetime 2024 1 1 0 0 0 0 TIME_ZONE)).
Proof.
  apply (get_date_range_explicit_range ex_strptime ex_now
           "2024-01-01" "2023-12-25" 1 2024 1 1 2023 12 25);
    reflexivity.
Defined.

(** ** [format_duration] *)

(** X22: [format_duration] on an int: whole hours are shown without
    minutes; a duration with hours and minutes shows both; anything below
    an hour, a negative number of minutes included, is shown as its
    remainder modulo 60 alone, so minus 30 is shown like 30. *)
Theorem format_duration_cases :
  (forall h, 0 < h -> format_duration (60 * h) = pretty h +:+ "h")
  /\ (forall h r, 0 < h -> 0 < r < 60 ->
        format_duration (60 * h + r) = pretty h +:+ "h " +:+ pretty r +:+ "m")
  /\ (forall m, m < 60 -> format_duration m = pretty (m mod 60) +:+ "m").
Proof.
  unfold format_duration. split; [|split].
  - intros h Hh.
    replace (60 * h / 60) with h by (Z.to_euclidean_division_equations; lia).
    replace ((60 * h) mod 60) with 0 by (Z.to_euclidean_division_equations; lia).
    by destruct (Z.ltb_spec 0 h); [|lia].
  - intros h r Hh Hr.
    replace ((60 * h + r) / 60) with h
      by (Z.to_euclidean_division_equations; lia).
    replace ((60 * h + r) mod 60) with r
      by (Z.to_euclidean_division_equations; lia).
    destruct (Z.ltb_spec 0 h); [|lia]. by destruct (Z.ltb_spec 0 r); [|lia].
  - intros m Hm.
    destruct (Z.ltb_spec 0 (m / 60)) as [H|H]; [|done].
    exfalso. Z.to_euclidean_division_equations. lia.
Qed.
